(** * Readwren: the Redis checkpointer, the interview CLI turn step and the
    conversation coverage analyzer, embedded in Rocq.

    Sources:
    - src/src/agents/redis_checkpointer.py  (RedisCheckpointSaver)
    - src/cli_interview.py                   (the main loop's per-turn step)
    - src/src/tools/profile_tools.py         (ConversationAnalyzerTool) *)

From Stdlib Require Import Ascii String ZArith QArith Qround Bool.
From stdpp Require Import base gmap strings list.

Open Scope string_scope.

(* ===================================================================== *)
(** * Python helpers *)
(* ===================================================================== *)

(** Python truthiness of a [str]: the empty string is falsy. *)
Definition str_truthy (s : string) : bool := negb (String.eqb s "").

(** [sep.join(parts)] *)
Fixpoint py_join (sep : string) (parts : list string) : string :=
  match parts with
  | [] => ""
  | [p] => p
  | p :: ps => String.append p (String.append sep (py_join sep ps))
  end.

(** [s.endswith(suf)] *)
Definition py_endswith (s suf : string) : bool :=
  let n := String.length s in
  let m := String.length suf in
  (m <=? n)%nat && String.eqb (String.substring (n - m) m s) suf.

(** Python slicing [l[:n]] for an integer [n] (negative counts from the end). *)
Definition py_take {A} (n : Z) (l : list A) : list A :=
  if (0 <=? n)%Z then take (Z.to_nat n) l
  else take (Z.to_nat (Z.of_nat (length l) + n)) l.

(** Exceptions raised by the modelled code: [LoadsError] is whatever
    exception [pickle.loads] raises on bytes that are not a pickle
    ([EOFError] on empty or truncated input, [UnpicklingError] and others
    on invalid input); the source catches none of them. *)
Inductive exn := LoadsError.

Inductive result (A : Type) :=
| Ok (a : A)
| Raise (e : exn).
Arguments Ok {A} a.
Arguments Raise {A} e.

(* ===================================================================== *)
(** * Redis: values, commands and KEYS glob matching *)
(* ===================================================================== *)

Module Redis.

(** Redis [KEYS pattern] matching, after [stringmatchlen] of the Redis
    server (util.c), case-sensitive.  Metacharacters: [*], [?], [[...]]
    (with [^] negation, [a-z] ranges and [\] escapes) and [\]. *)

Definition a_eqb (a b : ascii) : bool := Ascii.eqb a b.

Definition in_range (c x y : ascii) : bool :=
  let (lo, hi) := if (nat_of_ascii y <? nat_of_ascii x)%nat then (y, x) else (x, y) in
  (nat_of_ascii lo <=? nat_of_ascii c)%nat && (nat_of_ascii c <=? nat_of_ascii hi)%nat.

(** The loop of the [[] case: returns whether [c] matched and the pattern
    left after the closing [\]] (empty when the class is unterminated). *)
Fixpoint class_match (c : ascii) (p : list ascii) (acc : bool) : bool * list ascii :=
  match p with
  | [] => (acc, [])
  | x :: rest =>
      if a_eqb x "\" then
        match rest with
        | y :: rest' => class_match c rest' (acc || a_eqb y c)
        | [] => class_match c rest (acc || a_eqb x c)
        end
      else if a_eqb x "]" then (acc, rest)
      else
        match rest with
        | m :: y :: rest' =>
            if a_eqb m "-" then class_match c rest' (acc || in_range c x y)
            else class_match c rest (acc || a_eqb x c)
        | _ => class_match c rest (acc || a_eqb x c)
        end
  end.

Fixpoint drop_stars (p : list ascii) : list ascii :=
  match p with
  | x :: p' => if a_eqb x "*" then drop_stars p' else p
  | [] => []
  end.

(** Try [k] on every non-empty suffix of [s] ([while(stringLen) ... string++]). *)
Fixpoint exists_nonempty_suffix (k : list ascii -> bool) (s : list ascii) : bool :=
  match s with
  | [] => false
  | _ :: s' => k s || exists_nonempty_suffix k s'
  end.

(** [stringmatchlen]; the fuel bounds the pattern length, which every
    recursive call shortens. *)
Fixpoint gmatch (fuel : nat) (p s : list ascii) : bool :=
  match fuel with
  | O => false
  | S f =>
    (* after consuming one character: at end of string skip trailing stars *)
    let after q t :=
      match t with
      | [] => match drop_stars q with [] => true | _ => false end
      | _ => gmatch f q t
      end in
    match p, s with
    | [], [] => true
    | [], _ :: _ => false
    | _ :: _, [] => false
    | x :: p', c :: s' =>
        if a_eqb x "*" then
          match drop_stars p' with
          | [] => true
          | q => exists_nonempty_suffix (gmatch f q) s
          end
        else if a_eqb x "?" then after p' s'
        else if a_eqb x "[" then
          let '(neg, body) :=
            match p' with
            | y :: b => if a_eqb y "^" then (true, b) else (false, p')
            | [] => (false, p')
            end in
          let '(m, rest) := class_match c body false in
          if xorb neg m then after rest s' else false
        else if a_eqb x "\" then
          match p' with
          | y :: p'' => a_eqb y c && after p'' s'
          | [] => a_eqb x c && after p' s'
          end
        else a_eqb x c && after p' s'
    end
  end.

Definition glob_match (pattern key : string) : bool :=
  gmatch (S (String.length pattern)) (list_ascii_of_string pattern) (list_ascii_of_string key).

(** No KEYS metacharacter ([*], [?], [[], [\]) occurs in [s]. *)
Definition glob_free (s : string) : bool :=
  forallb (fun c => negb (existsb (a_eqb c) ["*"; "?"; "["; "\"]%char)) (list_ascii_of_string s).

End Redis.

(* ===================================================================== *)
(** * RedisCheckpointSaver *)
(* ===================================================================== *)

Module Checkpointer.

(** A LangGraph checkpoint dict: its ["id"] entry (absent or [None] is
    [None]) and the rest of its content. *)
Record checkpoint := mk_checkpoint {
  cp_id : option string;
  cp_body : list (string * string)
}.

Definition metadata := list (string * string).

(** [config["configurable"]]: each entry may be absent. *)
Record configurable := mk_configurable {
  cf_thread_id : option string;
  cf_checkpoint_ns : option string;
  cf_checkpoint_id : option string
}.

(** A config dict: [None] when it has no ["configurable"] key. *)
Definition config := option configurable.

(** [config.get("configurable", {}).get(field, default)] *)
Definition cfg_get (f : configurable -> option string) (cfg : config) : option string :=
  match cfg with
  | Some c => f c
  | None => None
  end.

Definition cfg_thread_id (cfg : config) : string :=
  default "default" (cfg_get cf_thread_id cfg).
Definition cfg_checkpoint_ns (cfg : config) : string :=
  default "" (cfg_get cf_checkpoint_ns cfg).
Definition cfg_checkpoint_id (cfg : config) : option string :=
  cfg_get cf_checkpoint_id cfg.

(** [safe_config["configurable"]] as stored by [put]. *)
Record safe_config := mk_safe_config {
  sc_thread_id : string;
  sc_checkpoint_ns : string;
  sc_checkpoint_id : option string
}.

(** The pickled dict [{"checkpoint", "metadata", "config"}]. *)
Record stored := mk_stored {
  st_checkpoint : checkpoint;
  st_metadata : metadata;
  st_config : safe_config
}.

(** Bytes held under a Redis key: the pickle of a stored record, or other
    bytes that do not unpickle to one (a corrupt record). *)
Inductive blob :=
| Pickled (d : stored)
| RawBytes (bs : list Byte.byte).

(** [pickle.dumps] *)
Definition dumps (d : stored) : blob := Pickled d.

(** [pickle.loads] *)
Definition loads (b : blob) : result stored :=
  match b with
  | Pickled d => Ok d
  | RawBytes _ => Raise LoadsError
  end.

(** Python truthiness of the bytes returned by [GET] (a pickle is never empty). *)
Definition blob_truthy (b : blob) : bool :=
  match b with
  | Pickled _ => true
  | RawBytes [] => false
  | RawBytes (_ :: _) => true
  end.

(** A Redis entry: value and the TTL (seconds) set with it. *)
Record entry := mk_entry { e_value : blob; e_ttl : Z }.

Abbreviation store := (gmap string entry).

Inductive command := SETEX (key : string) (ttl : Z) (value : blob).

(** Each command is applied on its own; the server state after each one is
    what any other client observes. *)
Definition exec (st : store) (c : command) : store :=
  match c with
  | SETEX k t v => <[k := mk_entry v t]> st
  end.

Definition exec_all (st : store) (cs : list command) : store := fold_left exec cs st.

(** [GET key] *)
Definition redis_get (st : store) (k : string) : option blob := e_value <$> st !! k.

(** [KEYS pattern]: the set of stored keys matching [pattern]. Redis
    returns them in an unspecified order that may differ between calls;
    the model lists them in one fixed order, so the theorems about [list]
    are stated through membership in this list (which key is returned,
    skipped or raises), never through positions in it. *)
Definition redis_keys (st : store) (pattern : string) : list string :=
  filter (fun k => Redis.glob_match pattern k = true) (map fst (map_to_list st)).

Record saver := mk_saver { namespace : string; ttl : Z }.

(** [_make_key] *)
Definition make_key (sv : saver) (thread_id checkpoint_ns : string)
    (checkpoint_id : option string) : string :=
  let parts := [namespace sv; thread_id] in
  let parts := if str_truthy checkpoint_ns then app parts [checkpoint_ns] else parts in
  let parts :=
    match checkpoint_id with
    | Some c => if str_truthy c then app parts [c] else app parts ["latest"]
    | None => app parts ["latest"]
    end in
  py_join ":" parts.

(** The serialized dict written by [put]. *)
Definition put_record (cfg : config) (cp : checkpoint) (md : metadata) : stored :=
  let thread_id := cfg_thread_id cfg in
  let checkpoint_ns := cfg_checkpoint_ns cfg in
  mk_stored cp md (mk_safe_config thread_id checkpoint_ns (cp_id cp)).

(** The Redis commands [put] issues, in order. *)
Definition put_commands (sv : saver) (cfg : config) (cp : checkpoint) (md : metadata)
    : list command :=
  let thread_id := cfg_thread_id cfg in
  let checkpoint_ns := cfg_checkpoint_ns cfg in
  let serialized := dumps (put_record cfg cp md) in
  let key := make_key sv thread_id checkpoint_ns (cp_id cp) in
  let latest_key := make_key sv thread_id checkpoint_ns None in
  [SETEX key (ttl sv) serialized; SETEX latest_key (ttl sv) serialized].

(** [put]: returns the config it was given and the new store
    ([new_versions] is unused). *)
Definition put (sv : saver) (st : store) (cfg : config) (cp : checkpoint) (md : metadata)
    : config * store :=
  (cfg, exec_all st (put_commands sv cfg cp md)).

(** LangGraph's [CheckpointTuple] as built from a stored record. *)
Record checkpoint_tuple := mk_tuple {
  ct_config : safe_config;
  ct_checkpoint : checkpoint;
  ct_metadata : metadata;
  ct_parent_config : safe_config
}.

Definition to_tuple (d : stored) : checkpoint_tuple :=
  mk_tuple (st_config d) (st_checkpoint d) (st_metadata d) (st_config d).

Definition get_key (sv : saver) (cfg : config) : string :=
  make_key sv (cfg_thread_id cfg) (cfg_checkpoint_ns cfg) (cfg_checkpoint_id cfg).

(** [get_tuple]: [Ok None] is the Python [None] (not found). *)
Definition get_tuple (sv : saver) (st : store) (cfg : config) : result (option checkpoint_tuple) :=
  match redis_get st (get_key sv cfg) with
  | None => Ok None
  | Some serialized =>
      match loads serialized with
      | Ok d => Ok (Some (to_tuple d))
      | Raise e => Raise e
      end
  end.

(** The KEYS pattern built by [list]. *)
Definition list_pattern (sv : saver) (cfg : config) : string :=
  let thread_id := cfg_thread_id cfg in
  let checkpoint_ns := cfg_checkpoint_ns cfg in
  if str_truthy checkpoint_ns
  then py_join ":" [namespace sv; thread_id; checkpoint_ns; "*"]
  else py_join ":" [namespace sv; thread_id; "*"].

(** The [for key in keys] loop of [list]; an exception aborts it. *)
Fixpoint list_loop (st : store) (keys : list string) (tuples : list checkpoint_tuple)
    : result (list checkpoint_tuple) :=
  match keys with
  | [] => Ok tuples
  | key :: keys' =>
      if py_endswith key ":latest" then list_loop st keys' tuples
      else
        match redis_get st key with
        | Some serialized =>
            if blob_truthy serialized then
              match loads serialized with
              | Ok d => list_loop st keys' (app tuples [to_tuple d])
              | Raise e => Raise e
              end
            else list_loop st keys' tuples
        | None => list_loop st keys' tuples
        end
  end.

(** [list] ([filter] and [before] are ignored by the source). *)
Definition list (sv : saver) (st : store) (cfg : config) (limit : option Z)
    : result (list checkpoint_tuple) :=
  let keys := redis_keys st (list_pattern sv cfg) in
  match list_loop st keys [] with
  | Raise e => Raise e
  | Ok tuples =>
      match limit with
      | Some n => if (n =? 0)%Z then Ok tuples else Ok (py_take n tuples)
      | None => Ok tuples
      end
  end.

(** [config] with its thread id replaced by [t]. *)
Definition with_thread (cfg : config) (t : string) : config :=
  Some (mk_configurable (Some t) (cfg_get cf_checkpoint_ns cfg) (cfg_get cf_checkpoint_id cfg)).

End Checkpointer.

(* ===================================================================== *)
(** * ASCII string helpers shared by the CLI and the analyzer *)
(* ===================================================================== *)

(** [str.isspace] on ASCII characters: \t \n \v \f \r, the separators
    0x1c-0x1f and the space. *)
Definition is_space (c : ascii) : bool :=
  let n := nat_of_ascii c in
  ((9 <=? n)%nat && (n <=? 13)%nat) || ((28 <=? n)%nat && (n <=? 32)%nat).

Fixpoint lstrip_l (l : list ascii) : list ascii :=
  match l with
  | c :: l' => if is_space c then lstrip_l l' else l
  | [] => []
  end.

(** [s.strip()] *)
Definition py_strip (s : string) : string :=
  string_of_list_ascii (rev (lstrip_l (rev (lstrip_l (list_ascii_of_string s))))).

Definition lower_char (c : ascii) : ascii :=
  let n := nat_of_ascii c in
  if (65 <=? n)%nat && (n <=? 90)%nat then ascii_of_nat (n + 32) else c.

(** [s.lower()] *)
Definition py_lower (s : string) : string :=
  string_of_list_ascii (map lower_char (list_ascii_of_string s)).

(** [s[:n]] *)
Definition py_prefix (n : nat) (s : string) : string := String.substring 0 n s.

(* ===================================================================== *)
(** * cli_interview.py: one iteration of the main [while True] loop *)
(* ===================================================================== *)

Module CLI.

(** An entry of [conversation_history]. *)
Record turn_entry := mk_entry { te_role : string; te_content : string }.

Record cli_state := mk_cli_state {
  turn_count : nat;
  conversation_history : list turn_entry
}.

(** What [input] gives: a line (and, when the line is longer than 2000
    characters, the answer to the "Continue anyway?" prompt), or
    [KeyboardInterrupt]/[EOFError]. *)
Inductive user_event :=
| Line (raw : string) (confirm : string)
| Interrupted.

(** What [agent.send_message] does: raise, or return a dict with
    ["message"] and ["is_complete"] (absent counts as [False]). *)
Inductive agent_reply :=
| AgentError
| AgentReply (message : string) (is_complete : bool).

Inductive completion_status := complete | early_exit | interrupted.

(** The loop either goes round again ([continue] or normal fall-through)
    or leaves it, with the [completion_status] handed to the profile
    generator. *)
Inductive outcome :=
| Continue (st : cli_state)
| Finish (status : completion_status) (st : cli_state).

(** [user_input] after [.strip()] and the long-input check. *)
Definition read_input (raw confirm : string) : string :=
  let user_input := py_strip raw in
  if (2000 <? String.length user_input)%nat then
    if String.eqb (py_lower (py_strip confirm)) "y" then user_input
    else py_prefix 2000 user_input
  else user_input.

Definition is_quit (user_input : string) : bool :=
  existsb (String.eqb (py_lower user_input)) ["quit"; "exit"; "q"].

(** One pass of the loop body; [reply] is what the agent call yields if it
    is made. *)
Definition cli_turn (st : cli_state) (ev : user_event) (reply : agent_reply) : outcome :=
  match ev with
  | Interrupted => Finish interrupted st
  | Line raw confirm =>
      let user_input := read_input raw confirm in
      if String.eqb user_input "" then Continue st
      else if is_quit user_input then Finish early_exit st
      else
        match reply with
        | AgentError => Continue st
        | AgentReply message is_complete =>
            let hist := app (conversation_history st)
                          [mk_entry "user" user_input; mk_entry "assistant" message] in
            let st' := mk_cli_state (S (turn_count st)) hist in
            if is_complete || (12 <=? turn_count st')%nat then Finish complete st'
            else Continue st'
        end
  end.

Definition outcome_state (o : outcome) : cli_state :=
  match o with Continue st => st | Finish _ st => st end.

(** The decision the caller sees: [None] to continue, or the final status. *)
Definition decision (o : outcome) : option completion_status :=
  match o with Continue _ => None | Finish s _ => Some s end.

(** What the loop body looks at in the user's line. *)
Inductive input_kind := KInterrupt | KEmpty | KQuit | KMessage.

Definition input_kind_of (ev : user_event) : input_kind :=
  match ev with
  | Interrupted => KInterrupt
  | Line raw confirm =>
      let user_input := read_input raw confirm in
      if String.eqb user_input "" then KEmpty
      else if is_quit user_input then KQuit else KMessage
  end.

(** What the loop body looks at in the agent call: whether it raised, and
    the reply's [is_complete]. *)
Definition reply_signal (r : agent_reply) : option bool :=
  match r with AgentError => None | AgentReply _ ic => Some ic end.

Definition turn_decision (tc : nat) (k : input_kind) (sig : option bool)
    : option completion_status :=
  match k with
  | KInterrupt => Some interrupted
  | KEmpty => None
  | KQuit => Some early_exit
  | KMessage =>
      match sig with
      | None => None
      | Some ic => if ic || (12 <=? S tc)%nat then Some complete else None
      end
  end.


(** The glyphs of [print_status]'s progress bar. *)
Inductive glyph := filled | open_slot.

(** [progress = "●" * turn_count + "○" * (max_turns - turn_count)]; a
    negative repeat count gives the empty string. *)
Definition progress_bar (turn_count max_turns : nat) : list glyph :=
  app (repeat filled turn_count) (repeat open_slot (max_turns - turn_count)).

(** A history made of user/assistant pairs, in order. *)
Definition pairs_history (pairs : list (string * string)) : list turn_entry :=
  flat_map (fun p => [mk_entry "user" (fst p); mk_entry "assistant" (snd p)]) pairs.

(** The state when the loop is entered. *)
Definition initial_state : cli_state := mk_cli_state 0 [].

(** Running the loop over the inputs of successive passes. *)
Fixpoint cli_run (st : cli_state) (steps : list (user_event * agent_reply)) : outcome :=
  match steps with
  | [] => Continue st
  | (ev, r) :: steps' =>
      match cli_turn st ev r with
      | Continue st' => cli_run st' steps'
      | Finish s st' => Finish s st'
      end
  end.

End CLI.

(* ===================================================================== *)
(** * profile_tools.py: ConversationAnalyzerTool *)
(* ===================================================================== *)

Module Analyzer.

(** A message dict: ["role"] and ["content"], each possibly absent. *)
Record message := mk_message { m_role : option string; m_content : option string }.

(** [msg.get("role") == "user"] *)
Definition is_user (m : message) : bool :=
  match m_role m with Some r => String.eqb r "user" | None => false end.

(** [msg.get("content", "")] *)
Definition content (m : message) : string := default "" (m_content m).

Fixpoint l_prefix (k h : list ascii) : bool :=
  match k, h with
  | [], _ => true
  | x :: k', y :: h' => Ascii.eqb x y && l_prefix k' h'
  | _ :: _, [] => false
  end.

Fixpoint l_in (k h : list ascii) : bool :=
  l_prefix k h || match h with [] => false | _ :: h' => l_in k h' end.

(** Python's [needle in hay] on strings. *)
Definition py_in (needle hay : string) : bool :=
  l_in (list_ascii_of_string needle) (list_ascii_of_string hay).

(** [_check_mentions] *)
Definition check_mentions (conversation : list message) (keywords : list string) : bool :=
  let user_messages := map (fun m => py_lower (content m)) (List.filter is_user conversation) in
  let full_text := py_join " " user_messages in
  existsb (fun keyword => py_in keyword full_text) keywords.

(** The dimensions of [_run], in the order of the [coverage] dict. *)
Definition dimensions : list (string * list string) :=
  [("taste_anchors", ["book"; "author"; "story"; "novel"]);
   ("style_preference", ["prose"; "writing"; "style"; "voice"]);
   ("narrative_desire", ["wish"; "want"; "story"; "plot"]);
   ("consumption_habit", ["read"; "time"; "daily"; "pages"])].

(** [round(x, 2)] on the values it receives here (multiples of 1/4, which
    are exact with two decimals, so ties never arise). *)
Definition round2 (q : Q) : Q := Qfloor (Qplus (Qmult q (inject_Z 100)) (1 # 2)) # 100.

(** The returned dict; [an_coverage_score] is [None] when the key is absent. *)
Record analysis := mk_analysis {
  an_turn_count : nat;
  an_coverage : list (string * bool);
  an_coverage_score : option Q;
  an_ready_for_summary : bool
}.

Definition covered_count (coverage : list (string * bool)) : nat :=
  length (List.filter snd coverage).

(** [_run] *)
Definition analyze (conversation_history : list message) : analysis :=
  match conversation_history with
  | [] => mk_analysis 0 [] None false
  | _ =>
    let turn_count := length (List.filter is_user conversation_history) in
    let coverage :=
      map (fun '(name, kws) => (name, check_mentions conversation_history kws)) dimensions in
    let coverage_score :=
      Qdiv (inject_Z (Z.of_nat (covered_count coverage))) (inject_Z (Z.of_nat (length coverage))) in
    let ready_for_summary := (8 <=? turn_count)%nat && Qle_bool (3 # 4) coverage_score in
    mk_analysis turn_count coverage (Some (round2 coverage_score)) ready_for_summary
  end.

(** [sep.join(parts)] on character lists, used to reason about [py_join]. *)
Fixpoint l_join (sep : list ascii) (parts : list (list ascii)) : list ascii :=
  match parts with
  | [] => []
  | [p] => p
  | p :: ps => app p (app sep (l_join sep ps))
  end.

(** The coverage dict built by [_run]. *)
Definition coverage_of (conversation_history : list message) : list (string * bool) :=
  map (fun '(name, kws) => (name, check_mentions conversation_history kws)) dimensions.

(** The spec's reading: [kw] occurs in [s] ignoring case. *)
Definition ci_contains (s kw : string) : bool := py_in (py_lower kw) (py_lower s).

(** The spec's reading of "covered": some user-authored message contains
    one of the keywords, ignoring case. *)
Definition covered_spec (conversation : list message) (keywords : list string) : Prop :=
  exists m kw, In m conversation /\ is_user m = true /\ In kw keywords /\
               ci_contains (content m) kw = true.

(** A keyword the join cannot split: lower case, non-empty, no space. *)
Definition keyword_ok (kw : string) : bool :=
  String.eqb (py_lower kw) kw && negb (String.eqb kw "") &&
  negb (existsb (Ascii.eqb " ") (list_ascii_of_string kw)).

End Analyzer.

(* ===================================================================== *)
(** * profile_tools.py: ProfileAnalyzerTool *)
(* ===================================================================== *)

Module ProfileAnalyzer.

(** [str.split()] with no argument: maximal runs of non-whitespace. *)
Fixpoint split_words (l : list ascii) (cur : list ascii) : list (list ascii) :=
  match l with
  | [] => match cur with [] => [] | _ => [rev cur] end
  | c :: l' =>
      if is_space c then
        match cur with [] => split_words l' [] | _ => rev cur :: split_words l' [] end
      else split_words l' (c :: cur)
  end.

Definition py_split (s : string) : list string :=
  map string_of_list_ascii (split_words (list_ascii_of_string s) []).

Definition example_indicators : list string := ["like"; "such as"; "for example"; "because"].
Definition emotion_words : list string := ["love"; "hate"; "amazing"; "terrible"; "boring"].

(** Python floats are modelled as rationals; the values compared against
    the thresholds of [_generate_analysis] agree with the float ones. *)
Definition engagement_of (response_text : string) : Q :=
  let has_examples := existsb (fun ind => Analyzer.py_in ind (py_lower response_text)) example_indicators in
  let has_emotion := existsb (fun w => Analyzer.py_in w (py_lower response_text)) emotion_words in
  Qplus (Qplus (1 # 2) (if has_examples then 1 # 4 else 0%Q)) (if has_emotion then 1 # 4 else 0%Q).

(** The f-string of [_generate_analysis]. *)
Definition analysis_text (style engagement_level suggestion : string) : string :=
  "Response style: " ++ style ++ ". Engagement: " ++ engagement_level ++ ". Suggest " ++ suggestion ++ ".".

(** [_generate_analysis] *)
Definition generate_analysis (vocab brevity engagement : Q) (word_count : nat) : string :=
  let style := if (word_count <? 20)%nat then "terse"
               else if (60 <? word_count)%nat then "detailed" else "moderate" in
  let engagement_level := if negb (Qle_bool engagement (7 # 10)) then "high"
                          else if negb (Qle_bool engagement (4 # 10)) then "moderate" else "low" in
  analysis_text style engagement_level
    (if negb (Qle_bool brevity (7 # 10)) then "binary choices" else "open-ended follow-ups").

Record profile_analysis := mk_profile_analysis {
  pa_vocabulary_richness : Q;
  pa_response_brevity : Q;
  pa_engagement_level : Q;
  pa_word_count : nat;
  pa_analysis : string
}.

(** [ProfileAnalyzerTool._run] ([conversation_history] is unused).
    [py_round2] is Python's [round(x, 2)] applied to the float of [x]; it
    is left as a parameter, since it rounds the binary float half to even. *)
Definition profile_run (py_round2 : Q -> Q) (response_text : string) : profile_analysis :=
  let words := py_split response_text in
  let unique_words := remove_dups (map py_lower words) in
  let vocab_richness := match words with
                        | [] => 0%Q
                        | _ => Qdiv (inject_Z (Z.of_nat (length unique_words)))
                                    (inject_Z (Z.of_nat (length words)))
                        end in
  let b := Qminus 1 (Qdiv (inject_Z (Z.of_nat (length words))) (inject_Z 100)) in
  let brevity := if Qle_bool b 0%Q then 0%Q else b in
  let engagement := engagement_of response_text in
  mk_profile_analysis (py_round2 vocab_richness) (py_round2 brevity)
    (py_round2 engagement) (length words)
    (generate_analysis vocab_richness brevity engagement (length words)).

End ProfileAnalyzer.

(* ===================================================================== *)
(** * reasoning_extractor.py: ReasoningExtractor *)
(* ===================================================================== *)

Module Reasoning.

(** A model response: for each of [additional_kwargs] and
    [response_metadata], [None] when the attribute is missing, else the
    result of [.get('reasoning_content')]. *)
Record llm_response := mk_llm_response {
  additional_kwargs_reasoning : option (option string);
  response_metadata_reasoning : option (option string)
}.

Definition truthy_reasoning (v : option (option string)) : option string :=
  match v with
  | Some (Some s) => if str_truthy s then Some s else None
  | _ => None
  end.

(** [extract_reasoning] *)
Definition extract_reasoning (response : llm_response) : option string :=
  match truthy_reasoning (additional_kwargs_reasoning response) with
  | Some r => Some r
  | None => truthy_reasoning (response_metadata_reasoning response)
  end.

(** [format_reasoning]: [reasoning] is [None] for a Python [None]. *)
Definition format_reasoning (reasoning : option string) (max_length : option Z) : string :=
  match reasoning with
  | None => ""
  | Some r =>
      if negb (str_truthy r) then ""
      else
        let formatted := py_strip r in
        match max_length with
        | Some n =>
            if negb (n =? 0)%Z && (n <? Z.of_nat (String.length formatted))%Z
            then string_of_list_ascii (py_take n (list_ascii_of_string formatted)) ++ "..."
            else formatted
        | None => formatted
        end
  end.

(** A LangChain message: [type], [content] (a string here) and, when
    [additional_kwargs] exists and is a non-empty dict, its
    [.get('reasoning_content')]. *)
Record base_message := mk_base_message {
  bm_type : string;
  bm_content : string;
  bm_reasoning : option (option string)
}.

(** A conversation dict: ["role"], ["content"] and ["reasoning_content"],
    each [None] when the key is absent. *)
Record msg_dict := mk_msg_dict {
  md_role : option string;
  md_content : option string;
  md_reasoning : option string
}.

(** [extract_from_messages] *)
Definition extract_from_messages (messages : list base_message) : list msg_dict :=
  map (fun msg => mk_msg_dict (Some (bm_type msg)) (Some (bm_content msg))
                    (truthy_reasoning (bm_reasoning msg))) messages.

(** An entry of the reasoning file. *)
Record reasoning_entry := mk_reasoning_entry {
  re_turn : nat;
  re_role : option string;
  re_content_preview : string;
  re_reasoning : string
}.

(** The [for i, msg in enumerate(conversation)] loop, from index [i]. *)
Fixpoint reasoning_data_from (i : nat) (conversation : list msg_dict) : list reasoning_entry :=
  match conversation with
  | [] => []
  | msg :: rest =>
      match md_reasoning msg with
      | Some r =>
          mk_reasoning_entry i (md_role msg)
            (py_prefix 100 (default "" (md_content msg)) ++ "...") r
          :: reasoning_data_from (S i) rest
      | None => reasoning_data_from (S i) rest
      end
  end.

(** [save_reasoning_separately]: the data written to [output_path], or
    [None] when no file is written. *)
Definition save_reasoning_separately (conversation : list msg_dict) (output_path : string)
    : option (list reasoning_entry) :=
  match reasoning_data_from 0 conversation with
  | [] => None
  | data => Some data
  end.

End Reasoning.

(* ===================================================================== *)
(** * Concrete inputs used by the witnesses and counterexamples *)
(* ===================================================================== *)

Module Samples.
Import Checkpointer.

(** [RedisCheckpointSaver(redis_client)] with its defaults. *)
Definition sv0 : saver := mk_saver "langgraph:checkpoint" 86400.

Definition cfg_session (t : string) : config :=
  Some (mk_configurable (Some t) None None).

Definition cp_c1 : checkpoint := mk_checkpoint (Some "c1") [("v", "1")].
Definition cp_c2 : checkpoint := mk_checkpoint (Some "c2") [("v", "2")].
Definition md1 : metadata := [("step", "1")].
Definition md2 : metadata := [("step", "2")].

(** Session "a" wrote c1 and then c2. *)
Definition store_a2 : store :=
  snd (put sv0 (snd (put sv0 ∅ (cfg_session "a") cp_c1 md1)) (cfg_session "a") cp_c2 md2).

(** Session "a" wrote c1, then session "a:b" wrote c2. *)
Definition store_a_ab : store :=
  snd (put sv0 (snd (put sv0 ∅ (cfg_session "a") cp_c1 md1)) (cfg_session "a:b") cp_c2 md2).

(** Session "a" wrote c1; the record under its key c2 is corrupt. *)
Definition store_corrupt : store :=
  <["langgraph:checkpoint:a:c2" := mk_entry (RawBytes [Byte.x80; Byte.x04]) 86400]>
    (snd (put sv0 ∅ (cfg_session "a") cp_c1 md1)).

(** Session "a" wrote c1; its key c2 holds empty bytes. *)
Definition store_empty_value : store :=
  <["langgraph:checkpoint:a:c2" := mk_entry (RawBytes []) 86400]>
    (snd (put sv0 ∅ (cfg_session "a") cp_c1 md1)).

(** Session "a" wrote c1 in checkpoint namespace "b". *)
Definition cfg_a_ns_b : config := Some (mk_configurable (Some "a") (Some "b") None).
Definition store_a_ns_b : store := snd (put sv0 ∅ cfg_a_ns_b cp_c1 md1).

End Samples.

(* ===================================================================== *)
(** * Strings: facts used below *)
(* ===================================================================== *)

Module StringFacts.

Lemma list_ascii_of_string_append (a b : string) :
  list_ascii_of_string (String.append a b) = app (list_ascii_of_string a) (list_ascii_of_string b).
Proof. induction a as [| c a IH]; simpl; [reflexivity | rewrite IH; reflexivity]. Qed.

Lemma length_list_ascii_of_string (s : string) :
  length (list_ascii_of_string s) = String.length s.
Proof. induction s as [| c s IH]; simpl; [reflexivity | rewrite IH; reflexivity]. Qed.

Lemma length_string_of_list_ascii (l : list ascii) :
  String.length (string_of_list_ascii l) = length l.
Proof. induction l as [| c l IH]; simpl; [reflexivity | rewrite IH; reflexivity]. Qed.

Lemma length_append (a b : string) :
  String.length (String.append a b) = (String.length a + String.length b)%nat.
Proof. induction a as [| c a IH]; simpl; [reflexivity | rewrite IH; reflexivity]. Qed.

Lemma append_cancel_l (x a b : string) : String.append x a = String.append x b -> a = b.
Proof. induction x as [| c x IH]; simpl; [auto | intros H; injection H; exact IH]. Qed.

Lemma str_append_assoc (a b c : string) :
  String.append a (String.append b c) = String.append (String.append a b) c.
Proof. induction a as [| x a IH]; [reflexivity | exact (f_equal (String x) IH)]. Qed.

Lemma py_join_snoc (sep a : string) (ps : list string) :
  ps <> [] -> py_join sep (app ps [a]) = String.append (py_join sep ps) (String.append sep a).
Proof.
  induction ps as [| p ps IH]; [congruence |]. intros _.
  destruct ps as [| q ps]; [reflexivity |].
  change (py_join sep (app (p :: q :: ps) [a]))
    with (String.append p (String.append sep (py_join sep (app (q :: ps) [a])))).
  rewrite IH by discriminate.
  change (py_join sep (p :: q :: ps))
    with (String.append p (String.append sep (py_join sep (q :: ps)))).
  rewrite <- !str_append_assoc. reflexivity.
Qed.

Lemma take_In {A} (n : nat) (l : list A) (x : A) : In x (take n l) -> In x l.
Proof.
  revert n. induction l as [| y l IH]; intros [| n]; simpl; try tauto.
  intros [-> | H]; [left; reflexivity | right; exact (IH n H)].
Qed.

Lemma glob_free_app (a b : string) :
  Redis.glob_free (String.append a b) = Redis.glob_free a && Redis.glob_free b.
Proof. unfold Redis.glob_free. rewrite list_ascii_of_string_append, forallb_app. reflexivity. Qed.

Lemma glob_free_join (sep : string) (ps : Datatypes.list string) :
  Redis.glob_free sep = true -> Forall (fun p => Redis.glob_free p = true) ps ->
  Redis.glob_free (py_join sep ps) = true.
Proof.
  intros Hs Hps. induction Hps as [| p ps Hp Hps IH]; [reflexivity |].
  destruct ps as [| q ps]; [exact Hp |].
  change (py_join sep (p :: q :: ps)) with (String.append p (String.append sep (py_join sep (q :: ps)))).
  rewrite !glob_free_app, Hp, Hs, IH. reflexivity.
Qed.

Lemma substring_0_length (n : nat) (s : string) : (String.length (String.substring 0 n s) <= n)%nat.
Proof.
  revert s. induction n as [| n IH]; intros [| c s]; simpl; try lia.
  specialize (IH s). lia.
Qed.

End StringFacts.

(* ===================================================================== *)
(** * Checkpointer: properties *)
(* ===================================================================== *)

Module CheckpointerFacts.
Import Checkpointer.

(** The store after [put]: the specific key, then the latest key. *)
Lemma put_store (sv : saver) (st : store) (cfg : config) (cp : checkpoint) (md : metadata) :
  snd (put sv st cfg cp md) =
  <[make_key sv (cfg_thread_id cfg) (cfg_checkpoint_ns cfg) None :=
      mk_entry (dumps (put_record cfg cp md)) (ttl sv)]>
   (<[make_key sv (cfg_thread_id cfg) (cfg_checkpoint_ns cfg) (cp_id cp) :=
      mk_entry (dumps (put_record cfg cp md)) (ttl sv)]> st).
Proof. reflexivity. Qed.

Lemma put_latest_lookup (sv : saver) (st : store) (cfg : config) (cp : checkpoint) (md : metadata) :
  snd (put sv st cfg cp md) !! make_key sv (cfg_thread_id cfg) (cfg_checkpoint_ns cfg) None =
  Some (mk_entry (dumps (put_record cfg cp md)) (ttl sv)).
Proof. rewrite put_store. apply lookup_insert_eq. Qed.

Lemma put_specific_lookup (sv : saver) (st : store) (cfg : config) (cp : checkpoint) (md : metadata) :
  snd (put sv st cfg cp md) !! make_key sv (cfg_thread_id cfg) (cfg_checkpoint_ns cfg) (cp_id cp) =
  Some (mk_entry (dumps (put_record cfg cp md)) (ttl sv)).
Proof.
  rewrite put_store.
  destruct (decide (make_key sv (cfg_thread_id cfg) (cfg_checkpoint_ns cfg) None =
                    make_key sv (cfg_thread_id cfg) (cfg_checkpoint_ns cfg) (cp_id cp))) as [E | NE].
  - rewrite <- E. apply lookup_insert_eq.
  - rewrite lookup_insert_ne by exact NE. apply lookup_insert_eq.
Qed.

(** [get_tuple] on a key holding a pickled record. *)
Lemma get_tuple_pickled (sv : saver) (st : store) (cfg : config) (d : stored) (t : Z) :
  st !! get_key sv cfg = Some (mk_entry (Pickled d) t) ->
  get_tuple sv st cfg = Ok (Some (to_tuple d)).
Proof. intros H. unfold get_tuple, redis_get. rewrite H. reflexivity. Qed.

(** ** C1 *)

(** C1 (counterexample): the two writes of [put] are separate commands.
    From a store whose "latest" key holds c1's record, after the first
    command of [put] for c2 the specific key c2 already holds the new record
    while the "latest" key still holds the old one. *)
Lemma put_not_atomic :
  let cs := put_commands Samples.sv0 (Samples.cfg_session "a") Samples.cp_c2 Samples.md2 in
  let st0 := snd (put Samples.sv0 ∅ (Samples.cfg_session "a") Samples.cp_c1 Samples.md1) in
  let mid := exec_all st0 (firstn 1 cs) in
  redis_get mid "langgraph:checkpoint:a:c2" =
    Some (dumps (put_record (Samples.cfg_session "a") Samples.cp_c2 Samples.md2)) /\
  redis_get mid "langgraph:checkpoint:a:latest" =
    Some (dumps (put_record (Samples.cfg_session "a") Samples.cp_c1 Samples.md1)) /\
  dumps (put_record (Samples.cfg_session "a") Samples.cp_c1 Samples.md1) <>
    dumps (put_record (Samples.cfg_session "a") Samples.cp_c2 Samples.md2) /\
  exec_all mid (skipn 1 cs) = snd (put Samples.sv0 st0 (Samples.cfg_session "a") Samples.cp_c2 Samples.md2).
Proof. vm_compute. split; [reflexivity | split; [reflexivity | split; [discriminate | reflexivity]]]. Qed.

(** C1 (amended): [put] issues exactly two SETEX commands with the
    configured TTL and the same serialized record {checkpoint, metadata,
    config}, first under the specific key then under the "latest" key;
    afterwards both keys hold it with that TTL, and between the two
    commands the store has the new specific key and the old "latest" key. *)
Lemma put_two_setex (sv : saver) (st : store) (cfg : config) (cp : checkpoint) (md : metadata) :
  let t := cfg_thread_id cfg in
  let ns := cfg_checkpoint_ns cfg in
  let key := make_key sv t ns (cp_id cp) in
  let latest_key := make_key sv t ns None in
  let rec := put_record cfg cp md in
  rec = mk_stored cp md (mk_safe_config t ns (cp_id cp)) /\
  put_commands sv cfg cp md = [SETEX key (ttl sv) (dumps rec); SETEX latest_key (ttl sv) (dumps rec)] /\
  snd (put sv st cfg cp md) !! key = Some (mk_entry (dumps rec) (ttl sv)) /\
  snd (put sv st cfg cp md) !! latest_key = Some (mk_entry (dumps rec) (ttl sv)) /\
  (forall k, k <> key -> k <> latest_key -> snd (put sv st cfg cp md) !! k = st !! k) /\
  (key <> latest_key ->
     exec st (SETEX key (ttl sv) (dumps rec)) !! key = Some (mk_entry (dumps rec) (ttl sv)) /\
     exec st (SETEX key (ttl sv) (dumps rec)) !! latest_key = st !! latest_key).
Proof.
  intros t ns key latest_key rec. subst t ns key latest_key rec.
  split; [reflexivity |]. split; [reflexivity |].
  split; [apply put_specific_lookup |]. split; [apply put_latest_lookup |].
  split.
  - intros k H1 H2. rewrite put_store.
    rewrite lookup_insert_ne by congruence. rewrite lookup_insert_ne by congruence. reflexivity.
  - intros Hne. simpl. split; [apply lookup_insert_eq |].
    rewrite lookup_insert_ne by congruence. reflexivity.
Qed.

Lemma put_two_setex_witness :
  "langgraph:checkpoint:a:c1" <> "langgraph:checkpoint:a:latest" /\
  exec ∅ (SETEX "langgraph:checkpoint:a:c1" 86400
            (dumps (put_record (Samples.cfg_session "a") Samples.cp_c1 Samples.md1)))
    !! "langgraph:checkpoint:a:latest" = None.
Proof.
  destruct (put_two_setex Samples.sv0 ∅ (Samples.cfg_session "a") Samples.cp_c1 Samples.md1)
    as (_ & _ & _ & _ & _ & H).
  split; [discriminate |].
  destruct H as [_ H]; [vm_compute; discriminate |].
  exact H.
Defined.

(** ** C2 *)

(** C2: [put] followed by [get_tuple] with no checkpoint id, for the same
    thread id and checkpoint namespace, returns a tuple whose checkpoint and
    metadata are the ones written. *)
Theorem put_then_get_latest (sv : saver) (st : store) (cfg get_cfg : config)
    (cp : checkpoint) (md : metadata) :
  cfg_thread_id get_cfg = cfg_thread_id cfg ->
  cfg_checkpoint_ns get_cfg = cfg_checkpoint_ns cfg ->
  cfg_checkpoint_id get_cfg = None ->
  exists t, get_tuple sv (snd (put sv st cfg cp md)) get_cfg = Ok (Some t) /\
            ct_checkpoint t = cp /\ ct_metadata t = md.
Proof.
  intros Ht Hns Hid.
  exists (to_tuple (put_record cfg cp md)).
  split; [| split; reflexivity].
  apply get_tuple_pickled with (t := ttl sv).
  unfold get_key. rewrite Ht, Hns, Hid.
  apply put_latest_lookup.
Qed.

Lemma put_then_get_latest_witness :
  exists t, get_tuple Samples.sv0 (snd (put Samples.sv0 Samples.store_a2 (Samples.cfg_session "a")
                                       Samples.cp_c1 Samples.md1)) (Samples.cfg_session "a") = Ok (Some t) /\
            ct_checkpoint t = Samples.cp_c1 /\ ct_metadata t = Samples.md1.
Proof. apply put_then_get_latest; reflexivity. Defined.

(** ** C3 *)

(** The not-found part of [get_tuple]: with no checkpoint id it reads the
    "latest" key of the config's thread and namespace; when the key it reads is absent it
    returns [None] (not found) and does not raise; in particular on a store
    where nothing was written. *)
Theorem get_tuple_latest_not_found (sv : saver) (st : store) (cfg : config) :
  (cfg_checkpoint_id cfg = None ->
     get_key sv cfg = make_key sv (cfg_thread_id cfg) (cfg_checkpoint_ns cfg) None) /\
  (st !! get_key sv cfg = None -> get_tuple sv st cfg = Ok None) /\
  get_tuple sv ∅ cfg = Ok None.
Proof.
  split; [| split].
  - intros H. unfold get_key. rewrite H. reflexivity.
  - intros H. unfold get_tuple, redis_get. rewrite H. reflexivity.
  - unfold get_tuple, redis_get. rewrite lookup_empty. reflexivity.
Qed.

Lemma get_tuple_latest_not_found_witness :
  get_key Samples.sv0 (Samples.cfg_session "b") = "langgraph:checkpoint:b:latest" /\
  get_tuple Samples.sv0 Samples.store_a2 (Samples.cfg_session "b") = Ok None.
Proof.
  destruct (get_tuple_latest_not_found Samples.sv0 Samples.store_a2 (Samples.cfg_session "b"))
    as (H1 & H2 & _).
  split.
  - rewrite H1 by reflexivity. reflexivity.
  - apply H2. vm_compute. reflexivity.
Defined.

(** C3 fails for a session that was never written but whose key collides
    with another session's: [_make_key] joins its parts with ":" without
    escaping, so session "a" with checkpoint namespace "b" and session
    "a:b" with the default namespace share the key
    "langgraph:checkpoint:a:b:latest". After a [put] for session "a" in
    namespace "b" only, [get_tuple] for the never-written session "a:b"
    returns session a's checkpoint instead of [None]. *)
Lemma get_never_written_collision :
  get_key Samples.sv0 (Samples.cfg_session "a:b") = get_key Samples.sv0 Samples.cfg_a_ns_b /\
  get_tuple Samples.sv0 Samples.store_a_ns_b (Samples.cfg_session "a:b") =
    get_tuple Samples.sv0 Samples.store_a_ns_b Samples.cfg_a_ns_b /\
  get_tuple Samples.sv0 Samples.store_a_ns_b (Samples.cfg_session "a:b") <> Ok None.
Proof.
  split; [| split].
  - vm_compute. reflexivity.
  - vm_compute. reflexivity.
  - vm_compute. discriminate.
Qed.

(** ** C10 *)

(** C10: a config with no thread id (or no "configurable" at all) makes
    [put], [get_tuple] and [list] act exactly as with thread id "default";
    so a checkpoint put by one such caller is what another such caller's
    [get_tuple] (same namespace, no checkpoint id) returns. *)
Theorem missing_thread_is_default (sv : saver) (st : store) (cfg cfg2 : config)
    (cp : checkpoint) (md : metadata) (limit : option Z) :
  cfg_get cf_thread_id cfg = None ->
  cfg_get cf_thread_id cfg2 = None ->
  cfg_checkpoint_ns cfg2 = cfg_checkpoint_ns cfg ->
  cfg_checkpoint_id cfg2 = None ->
  cfg_thread_id cfg = "default" /\
  put sv st cfg cp md = (cfg, snd (put sv st (with_thread cfg "default") cp md)) /\
  get_tuple sv st cfg = get_tuple sv st (with_thread cfg "default") /\
  list sv st cfg limit = list sv st (with_thread cfg "default") limit /\
  get_tuple sv (snd (put sv st cfg cp md)) cfg2 = Ok (Some (to_tuple (put_record cfg cp md))).
Proof.
  intros H1 H2 Hns Hid.
  assert (Hd : cfg_thread_id cfg = "default") by (unfold cfg_thread_id; rewrite H1; reflexivity).
  assert (Hd2 : cfg_thread_id cfg2 = "default") by (unfold cfg_thread_id; rewrite H2; reflexivity).
  assert (Hw : forall t, cfg_thread_id (with_thread cfg t) = t) by reflexivity.
  assert (Hwn : forall t, cfg_checkpoint_ns (with_thread cfg t) = cfg_checkpoint_ns cfg) by reflexivity.
  assert (Hwi : forall t, cfg_checkpoint_id (with_thread cfg t) = cfg_checkpoint_id cfg) by reflexivity.
  split; [exact Hd |]. split; [| split; [| split]].
  - unfold put, put_commands, put_record. rewrite Hw, Hwn, Hd. reflexivity.
  - unfold get_tuple, get_key. rewrite Hw, Hwn, Hwi, Hd. reflexivity.
  - unfold list, list_pattern. rewrite Hw, Hwn, Hd. reflexivity.
  - apply get_tuple_pickled with (t := ttl sv).
    unfold get_key. rewrite Hd2, Hns, Hid, <- Hd.
    apply put_latest_lookup.
Qed.

Lemma missing_thread_is_default_witness :
  get_tuple Samples.sv0 (snd (put Samples.sv0 ∅ None Samples.cp_c1 Samples.md1))
    (Some (mk_configurable None None None)) =
  Ok (Some (to_tuple (put_record None Samples.cp_c1 Samples.md1))).
Proof.
  destruct (missing_thread_is_default Samples.sv0 ∅ None (Some (mk_configurable None None None))
              Samples.cp_c1 Samples.md1 None eq_refl eq_refl eq_refl eq_refl) as (_ & _ & _ & _ & H).
  exact H.
Defined.

(** ** List *)

(** A positive limit bounds the result. *)
Lemma list_limit_positive (sv : saver) (st : store) (cfg : config) (n : Z)
    (ts : Datatypes.list checkpoint_tuple) :
  (0 < n)%Z -> list sv st cfg (Some n) = Ok ts -> (length ts <= Z.to_nat n)%nat.
Proof.
  intros Hn. unfold list.
  destruct (list_loop st (redis_keys st (list_pattern sv cfg)) []) as [tuples | e]; [| discriminate].
  destruct (Z.eqb_spec n 0) as [E | _]; [lia |].
  intros H. injection H as <-. unfold py_take.
  destruct (Z.leb_spec 0 n) as [_ | C]; [| lia].
  rewrite length_take. lia.
Qed.

(** C4 (failing input): with [limit=0] the source's [if limit:] is false,
    so no truncation happens and both checkpoints of session "a" come back. *)
Lemma list_limit_zero_not_applied :
  exists ts, list Samples.sv0 Samples.store_a2 (Samples.cfg_session "a") (Some 0%Z) = Ok ts /\
             length ts = 2%nat.
Proof. vm_compute. eexists. split; reflexivity. Qed.

(** C5 (failing input): the KEYS pattern of session "a" is
    "langgraph:checkpoint:a:*", which also matches the key
    "langgraph:checkpoint:a:b:c2" written for session "a:b"; session "a"'s
    history then contains session "a:b"'s checkpoint. *)
Lemma list_cross_session :
  exists ts t,
    list Samples.sv0 Samples.store_a_ab (Samples.cfg_session "a") None = Ok ts /\
    In t ts /\ sc_thread_id (ct_config t) = "a:b" /\ ct_checkpoint t = Samples.cp_c2.
Proof.
  vm_compute. do 2 eexists. split; [reflexivity |].
  split; [right; left; reflexivity | split; reflexivity].
Qed.

(** The [for] loop raises as soon as it reaches a non-alias key holding
    non-empty bytes that do not unpickle. *)
Lemma list_loop_corrupt (st : store) (keys : Datatypes.list string) (acc : Datatypes.list checkpoint_tuple)
    (k : string) (bs : Datatypes.list Byte.byte) :
  In k keys -> py_endswith k ":latest" = false ->
  redis_get st k = Some (RawBytes bs) -> bs <> [] ->
  list_loop st keys acc = Raise LoadsError.
Proof.
  intros Hin Hl Hg Hne. revert acc.
  induction keys as [| k0 keys IH]; intros acc; [destruct Hin |].
  destruct Hin as [<- | Hin].
  - simpl. rewrite Hl, Hg. destruct bs; [congruence | reflexivity].
  - simpl. destruct (py_endswith k0 ":latest"); [apply IH; exact Hin |].
    destruct (redis_get st k0) as [b |]; [| apply IH; exact Hin].
    destruct (blob_truthy b); [| apply IH; exact Hin].
    destruct (loads b) as [d | []]; [apply IH; exact Hin | reflexivity].
Qed.

(** C9 (counterexample): one corrupt record under session "a" makes the
    whole [list] call raise, although the record of c1 is valid. *)
Lemma list_corrupt_aborts :
  list Samples.sv0 Samples.store_corrupt (Samples.cfg_session "a") None = Raise LoadsError /\
  get_tuple Samples.sv0 Samples.store_corrupt
    (Some (mk_configurable (Some "a") None (Some "c1"))) =
    Ok (Some (to_tuple (put_record (Samples.cfg_session "a") Samples.cp_c1 Samples.md1))).
Proof. vm_compute. split; reflexivity. Qed.

(** The [for] loop passes over a key holding empty bytes ([if serialized:]
    is false) as if [KEYS] had not returned it. *)
Lemma list_loop_skip_empty (st : store) (keys : Datatypes.list string)
    (acc : Datatypes.list checkpoint_tuple) (k : string) :
  redis_get st k = Some (RawBytes []) ->
  list_loop st keys acc = list_loop st (List.filter (fun k' => negb (String.eqb k' k)) keys) acc.
Proof.
  intros Hg. revert acc. induction keys as [| k0 keys IH]; intros acc; [reflexivity |].
  simpl. destruct (String.eqb_spec k0 k) as [-> | Hne]; simpl.
  - rewrite Hg. simpl. destruct (py_endswith k ":latest"); apply IH.
  - destruct (py_endswith k0 ":latest"); [apply IH |].
    destruct (redis_get st k0) as [b |]; [| apply IH].
    destruct (blob_truthy b); [| apply IH].
    destruct (loads b) as [d |]; [apply IH | reflexivity].
Qed.

(** C9 (amended): if a key matched by [list]'s pattern that is not a
    "latest" key holds non-empty bytes that fail to unpickle, the error
    propagates and the whole [list] call fails, whatever the limit; a key
    holding empty bytes is skipped: the loop over the matched keys gives
    the same result as the loop over them without that key. *)
Theorem list_corrupt_raises (sv : saver) (st : store) (cfg : config) (limit : option Z) :
  (forall (k : string) (bs : Datatypes.list Byte.byte),
     In k (redis_keys st (list_pattern sv cfg)) -> py_endswith k ":latest" = false ->
     redis_get st k = Some (RawBytes bs) -> bs <> [] ->
     list sv st cfg limit = Raise LoadsError) /\
  (forall k : string,
     redis_get st k = Some (RawBytes []) ->
     list_loop st (redis_keys st (list_pattern sv cfg)) [] =
     list_loop st (List.filter (fun k' => negb (String.eqb k' k)) (redis_keys st (list_pattern sv cfg))) []).
Proof.
  split.
  - intros k bs Hin Hl Hg Hne. unfold list.
    rewrite (list_loop_corrupt st _ [] k bs Hin Hl Hg Hne). reflexivity.
  - intros k Hg. apply list_loop_skip_empty. exact Hg.
Qed.

Lemma list_corrupt_raises_witness :
  list Samples.sv0 Samples.store_corrupt (Samples.cfg_session "a") (Some 5%Z) = Raise LoadsError /\
  list_loop Samples.store_empty_value
    (redis_keys Samples.store_empty_value (list_pattern Samples.sv0 (Samples.cfg_session "a"))) [] =
  list_loop Samples.store_empty_value
    (List.filter (fun k' => negb (String.eqb k' "langgraph:checkpoint:a:c2"))
       (redis_keys Samples.store_empty_value (list_pattern Samples.sv0 (Samples.cfg_session "a")))) [].
Proof.
  split.
  - apply (proj1 (list_corrupt_raises Samples.sv0 Samples.store_corrupt (Samples.cfg_session "a") (Some 5%Z))
             "langgraph:checkpoint:a:c2" [Byte.x80; Byte.x04]).
    + vm_compute. right; left; reflexivity.
    + reflexivity.
    + reflexivity.
    + discriminate.
  - apply (proj2 (list_corrupt_raises Samples.sv0 Samples.store_empty_value (Samples.cfg_session "a") None)).
    reflexivity.
Defined.

End CheckpointerFacts.

(* ===================================================================== *)
(** * CLI: properties *)
(* ===================================================================== *)


(* ===================================================================== *)
(** * CLI: properties *)
(* ===================================================================== *)

Module CLIFacts.
Import CLI.

(** ** C6 *)

(** C6: when the turn that brings [turn_count] to 12 is processed, the loop
    ends with [completion_status] "complete", whatever the agent's
    [is_complete]; and a turn that continues the loop from below 12 stays
    below 12, so 12 processed turns are never exceeded. *)
Theorem twelfth_turn_completes (st : cli_state) (ev : user_event) (r : agent_reply) :
  (turn_count st = 11%nat ->
   turn_count (outcome_state (cli_turn st ev r)) = 12%nat ->
   cli_turn st ev r = Finish complete (outcome_state (cli_turn st ev r))) /\
  (forall st', (turn_count st < 12)%nat -> cli_turn st ev r = Continue st' ->
   (turn_count st' < 12)%nat).
Proof.
  split.
  - intros H11 H12. destruct ev as [raw confirm |]; simpl in *; [| lia].
    destruct (String.eqb (read_input raw confirm) ""); simpl in *; [lia |].
    destruct (is_quit (read_input raw confirm)); simpl in *; [lia |].
    destruct r as [| msg ic]; simpl in *; [lia |].
    rewrite H11. simpl. rewrite orb_true_r. reflexivity.
  - intros st' Hlt. destruct ev as [raw confirm |]; [| discriminate].
    unfold cli_turn. cbv zeta.
    destruct (String.eqb (read_input raw confirm) "");
      [intros H; injection H as <-; exact Hlt |].
    destruct (is_quit (read_input raw confirm)); [discriminate |].
    destruct r as [| msg ic]; [intros H; injection H as <-; exact Hlt |].
    simpl turn_count at 1.
    destruct (ic || (12 <=? S (turn_count st))%nat) eqn:E; [discriminate |].
    intros H; injection H as <-. simpl. apply orb_false_iff in E as [_ E].
    apply Nat.leb_gt in E. exact E.
Qed.

Lemma twelfth_turn_completes_witness :
  cli_turn (mk_cli_state 11 []) (Line "I mostly read at night" "") (AgentReply "Tell me more?" false) =
  Finish complete (outcome_state
    (cli_turn (mk_cli_state 11 []) (Line "I mostly read at night" "") (AgentReply "Tell me more?" false))) /\
  (turn_count (outcome_state
    (cli_turn (mk_cli_state 6 []) (Line "hi" "") (AgentReply "ok" false))) < 12)%nat.
Proof.
  split.
  - apply (proj1 (twelfth_turn_completes _ _ _)); vm_compute; reflexivity.
  - apply (proj2 (twelfth_turn_completes (mk_cli_state 6 []) (Line "hi" "") (AgentReply "ok" false))).
    + simpl. lia.
    + vm_compute. reflexivity.
Defined.

(** ** C7 *)

(** C7 (counterexample): two runs at the same turn count, with the same
    line (no quit) and the same reply text, differ in the decision when the
    agent's reply differs in [is_complete]; and at turn 11 a raising agent
    call continues where a successful one completes. *)
Lemma decision_depends_on_reply :
  decision (cli_turn (mk_cli_state 5 []) (Line "I love novels" "") (AgentReply "Great." true)) =
    Some complete /\
  decision (cli_turn (mk_cli_state 5 []) (Line "I love novels" "") (AgentReply "Great." false)) =
    None /\
  decision (cli_turn (mk_cli_state 11 []) (Line "I love novels" "") AgentError) = None /\
  decision (cli_turn (mk_cli_state 11 []) (Line "I love novels" "") (AgentReply "Great." false)) =
    Some complete.
Proof. vm_compute. repeat split. Qed.

(** C7 (amended): the decision of a turn is a function of the turn count,
    of what the line is (interrupt, empty, quit command, message), of
    whether the agent call raised and of the reply's [is_complete]; it does
    not depend on the reply's text, and the turn ceiling completes the
    session exactly when the count reaches 12. *)
Theorem decision_function (st : cli_state) (ev : user_event) (r : agent_reply) :
  decision (cli_turn st ev r) = turn_decision (turn_count st) (input_kind_of ev) (reply_signal r).
Proof.
  destruct ev as [raw confirm |]; [| reflexivity]. simpl.
  destruct (String.eqb (read_input raw confirm) ""); [reflexivity |].
  destruct (is_quit (read_input raw confirm)); [reflexivity |].
  destruct r as [| msg ic]; [reflexivity |]. simpl.
  destruct (ic || _); reflexivity.
Qed.

End CLIFacts.

(* ===================================================================== *)
(** * Analyzer: properties *)
(* ===================================================================== *)

Module AnalyzerFacts.
Import Analyzer StringFacts.

Lemma py_join_ascii (sep : string) (parts : list string) :
  list_ascii_of_string (py_join sep parts) =
  l_join (list_ascii_of_string sep) (map list_ascii_of_string parts).
Proof.
  induction parts as [| p ps IH]; [reflexivity |].
  destruct ps as [| q ps]; [reflexivity |].
  change (py_join sep (p :: q :: ps)) with (String.append p (String.append sep (py_join sep (q :: ps)))).
  rewrite !list_ascii_of_string_append, IH. reflexivity.
Qed.

Section Separator.
Variable sep : ascii.

(** A needle without the separator cannot reach across it. *)
Lemma l_prefix_app_sep (k m rest : list ascii) :
  ~ In sep k -> l_prefix k (app m (sep :: rest)) = l_prefix k m.
Proof.
  revert m. induction k as [| x k IH]; intros m Hk; [destruct m; reflexivity |].
  destruct m as [| y m]; simpl.
  - destruct (Ascii.eqb_spec x sep) as [-> | _]; [exfalso; apply Hk; left; reflexivity | reflexivity].
  - rewrite IH; [reflexivity |]. intros H; apply Hk; right; exact H.
Qed.

Lemma l_in_sep_cons (k rest : list ascii) :
  ~ In sep k -> l_in k (sep :: rest) = l_in k rest.
Proof.
  intros Hk. destruct k as [| x k]; simpl.
  - destruct rest; reflexivity.
  - destruct (Ascii.eqb_spec x sep) as [-> | _]; [exfalso; apply Hk; left; reflexivity | reflexivity].
Qed.

Lemma l_in_nil (k : list ascii) : k <> [] -> l_in k [] = false.
Proof. destruct k; [congruence | reflexivity]. Qed.

Lemma l_in_app_sep (k m rest : list ascii) :
  ~ In sep k -> l_in k (app m (sep :: rest)) = l_in k m || l_in k rest.
Proof.
  intros Hk. induction m as [| y m IH].
  - simpl app. rewrite l_in_sep_cons by exact Hk.
    destruct k as [| x k]; [destruct rest; reflexivity | reflexivity].
  - pose proof (l_prefix_app_sep k (y :: m) rest Hk) as E. simpl app in E.
    simpl. rewrite E, IH. rewrite orb_assoc. reflexivity.
Qed.

Lemma l_in_join (k : list ascii) (ms : list (list ascii)) :
  k <> [] -> ~ In sep k -> l_in k (l_join [sep] ms) = existsb (l_in k) ms.
Proof.
  intros Hne Hk. induction ms as [| m ms IH]; [apply l_in_nil; exact Hne |].
  destruct ms as [| m2 ms].
  - simpl. rewrite orb_false_r. reflexivity.
  - change (l_join [sep] (m :: m2 :: ms)) with (app m (sep :: l_join [sep] (m2 :: ms))).
    rewrite l_in_app_sep by exact Hk. rewrite IH. reflexivity.
Qed.

End Separator.

Lemma existsb_map_fun {A B} (f : B -> bool) (g : A -> B) (l : list A) :
  existsb f (map g l) = existsb (fun x => f (g x)) l.
Proof. induction l as [| x l IH]; simpl; [reflexivity | rewrite IH; reflexivity]. Qed.

Lemma existsb_space_In (l : list ascii) :
  existsb (Ascii.eqb " ") l = false -> ~ In " "%char l.
Proof.
  intros H Hin. apply Bool.not_true_iff_false in H. apply H.
  apply existsb_exists. exists " "%char. split; [exact Hin | apply Ascii.eqb_refl].
Qed.

(** With keywords that have no space, the joined text contains a keyword
    exactly when one of the user messages does. *)
Lemma check_mentions_per_message (conv : list message) (kws : list string) :
  Forall (fun kw => keyword_ok kw = true) kws ->
  check_mentions conv kws =
  existsb (fun kw => existsb (fun m => py_in kw (py_lower (content m))) (List.filter is_user conv)) kws.
Proof.
  intros Hok. unfold check_mentions.
  induction Hok as [| kw kws Hkw _ IH]; [reflexivity |].
  simpl existsb. rewrite IH. f_equal.
  unfold py_in at 1. rewrite py_join_ascii.
  unfold keyword_ok in Hkw. apply andb_true_iff in Hkw as [Hkw Hsp].
  apply andb_true_iff in Hkw as [_ Hne]. apply negb_true_iff in Hsp, Hne.
  change (list_ascii_of_string " ") with [" "%char].
  rewrite l_in_join.
  - rewrite !existsb_map_fun. reflexivity.
  - intros E. destruct kw; [discriminate | discriminate].
  - apply existsb_space_In. exact Hsp.
Qed.

Lemma check_mentions_covered (conv : list message) (kws : list string) :
  Forall (fun kw => keyword_ok kw = true) kws ->
  check_mentions conv kws = true <-> covered_spec conv kws.
Proof.
  intros Hok. rewrite check_mentions_per_message by exact Hok.
  unfold covered_spec, ci_contains. rewrite existsb_exists. split.
  - intros (kw & Hin & Hm). apply existsb_exists in Hm as (m & Hmin & Hc).
    apply filter_In in Hmin as [Hmin Hu].
    exists m, kw. repeat split; try assumption.
    rewrite List.Forall_forall in Hok. specialize (Hok kw Hin).
    unfold keyword_ok in Hok. apply andb_true_iff in Hok as [Hok _].
    apply andb_true_iff in Hok as [Hok _]. apply String.eqb_eq in Hok. rewrite Hok. exact Hc.
  - intros (m & kw & Hmin & Hu & Hin & Hc). exists kw. split; [exact Hin |].
    apply existsb_exists. exists m. split; [apply filter_In; split; assumption |].
    rewrite List.Forall_forall in Hok. specialize (Hok kw Hin).
    unfold keyword_ok in Hok. apply andb_true_iff in Hok as [Hok _].
    apply andb_true_iff in Hok as [Hok _]. apply String.eqb_eq in Hok. rewrite Hok in Hc. exact Hc.
Qed.

Lemma dimensions_ok : Forall (fun d => Forall (fun kw => keyword_ok kw = true) (snd d)) dimensions.
Proof. repeat constructor. Qed.

Lemma coverage_of_spec (conv : list message) (ds : list (string * list string)) :
  Forall (fun d => Forall (fun kw => keyword_ok kw = true) (snd d)) ds ->
  Forall2 (fun (d : string * list string) (c : string * bool) =>
             fst c = fst d /\ (snd c = true <-> covered_spec conv (snd d)))
          ds (map (fun '(name, kws) => (name, check_mentions conv kws)) ds).
Proof.
  intros H. induction H as [| [name kws] ds Hd _ IH]; constructor; [| exact IH].
  split; [reflexivity |]. apply check_mentions_covered. exact Hd.
Qed.

Lemma round2_quarter (k : nat) :
  (k <= 4)%nat -> round2 (Qdiv (inject_Z (Z.of_nat k)) (inject_Z 4)) == Qdiv (inject_Z (Z.of_nat k)) (inject_Z 4).
Proof.
  intros Hk. do 5 (destruct k as [| k]; [vm_compute; reflexivity |]). lia.
Qed.

(** ** C8 *)

(** C8 (counterexample): on the empty history the early return gives no
    coverage_score and marks no dimension, where the claim has a score of
    0/4 and four unmarked dimensions. *)
Lemma analyze_empty_no_score :
  an_coverage_score (analyze []) = None /\ an_coverage (analyze []) = [] /\
  an_turn_count (analyze []) = 0%nat /\ an_ready_for_summary (analyze []) = false.
Proof. repeat split. Qed.

Lemma covered_count_le (conv : list message) :
  (covered_count (coverage_of conv) <= 4)%nat.
Proof.
  unfold covered_count. etransitivity; [apply filter_length_le |].
  unfold coverage_of. rewrite length_map. reflexivity.
Qed.

(** C8 (amended): for a non-empty history, each dimension is marked
    covered exactly when some user-authored message contains one of its
    keywords ignoring case, coverage_score equals covered/4,
    ready_for_summary holds exactly when at least 8 user turns were made
    and coverage_score >= 0.75, and turn_count counts the user messages;
    the empty history gives turn_count 0, no coverage, no score and
    ready_for_summary false. *)
Theorem analyze_coverage (conv : list message) :
  (conv = [] -> analyze conv = mk_analysis 0 [] None false) /\
  (conv <> [] ->
    an_turn_count (analyze conv) = length (List.filter is_user conv) /\
    Forall2 (fun (d : string * list string) (c : string * bool) =>
               fst c = fst d /\ (snd c = true <-> covered_spec conv (snd d)))
            dimensions (an_coverage (analyze conv)) /\
    exists q, an_coverage_score (analyze conv) = Some q /\
      q == Qdiv (inject_Z (Z.of_nat (covered_count (an_coverage (analyze conv)))))
                (inject_Z (Z.of_nat (length dimensions))) /\
      (an_ready_for_summary (analyze conv) = true <->
         (8 <= an_turn_count (analyze conv))%nat /\ Qle (3 # 4) q)).
Proof.
  split; [intros ->; reflexivity |].
  intros Hne.
  assert (Ha : analyze conv =
    mk_analysis (length (List.filter is_user conv)) (coverage_of conv)
      (Some (round2 (Qdiv (inject_Z (Z.of_nat (covered_count (coverage_of conv)))) (inject_Z 4))))
      ((8 <=? length (List.filter is_user conv))%nat &&
       Qle_bool (3 # 4) (Qdiv (inject_Z (Z.of_nat (covered_count (coverage_of conv)))) (inject_Z 4)))).
  { destruct conv; [congruence | reflexivity]. }
  rewrite Ha. cbn [an_turn_count an_coverage an_coverage_score an_ready_for_summary].
  split; [reflexivity |]. split; [apply coverage_of_spec, dimensions_ok |].
  eexists. split; [reflexivity |].
  pose proof (round2_quarter _ (covered_count_le conv)) as Hr.
  split; [exact Hr |].
  rewrite andb_true_iff, Nat.leb_le, Qle_bool_iff.
  split; intros [H1 H2]; split; try exact H1.
  - rewrite Hr. exact H2.
  - rewrite <- Hr. exact H2.
Qed.

Lemma analyze_coverage_witness :
  an_ready_for_summary
    (analyze (repeat (mk_message (Some "user") (Some "I READ a Novel with great prose and a twisty plot")) 8)) = true.
Proof.
  destruct (analyze_coverage
    (repeat (mk_message (Some "user") (Some "I READ a Novel with great prose and a twisty plot")) 8))
    as [_ H].
  destruct H as (_ & _ & q & Hq & _ & Hready); [discriminate |].
  apply Hready. split.
  - vm_compute. lia.
  - vm_compute in Hq. injection Hq as <-. vm_compute. discriminate.
Defined.

End AnalyzerFacts.

(* ===================================================================== *)
(** * Checkpointer: further properties *)
(* ===================================================================== *)

Module CheckpointerProps.
Import Checkpointer StringFacts.

Lemma gmatch_prefix_star (p rest : Datatypes.list ascii) (fuel : nat) :
  p <> [] ->
  forallb (fun c => negb (existsb (Redis.a_eqb c) ["*"; "?"; "["; "\"]%char)) p = true ->
  (length p < fuel)%nat ->
  Redis.gmatch fuel (app p ["*"%char]) (app p rest) = true.
Proof.
  revert fuel. induction p as [| x p IH]; intros fuel Hne Hf Hl; [congruence |].
  destruct fuel as [| f]; [simpl in Hl; lia |].
  simpl in Hf. apply andb_true_iff in Hf as [Hx Hf].
  apply negb_true_iff in Hx. simpl in Hx.
  apply orb_false_iff in Hx as [H1 Hx]. apply orb_false_iff in Hx as [H2 Hx].
  apply orb_false_iff in Hx as [H3 Hx]. apply orb_false_iff in Hx as [H4 _].
  simpl. rewrite H1, H2, H3, H4. unfold Redis.a_eqb at 1. rewrite Ascii.eqb_refl. simpl.
  destruct p as [| y p].
  - destruct rest as [| c r]; [reflexivity |].
    simpl in Hl. destruct f as [| f]; [lia |]. reflexivity.
  - simpl app. apply (IH f); [discriminate | exact Hf | simpl in *; lia].
Qed.

Lemma make_key_last (sv : saver) (t n : string) (o : option string) :
  make_key sv t n o =
  py_join ":" (app (if str_truthy n then [namespace sv; t; n] else [namespace sv; t])
                   [match o with Some c => if str_truthy c then c else "latest" | None => "latest" end]).
Proof. unfold make_key. destruct (str_truthy n), o as [c |]; try destruct (str_truthy c); reflexivity. Qed.

Lemma make_key_inj (sv : saver) (t n : string) (o1 o2 : option string) :
  make_key sv t n o1 = make_key sv t n o2 ->
  match o1 with Some c => if str_truthy c then c else "latest" | None => "latest" end =
  match o2 with Some c => if str_truthy c then c else "latest" | None => "latest" end.
Proof.
  rewrite !make_key_last. rewrite !py_join_snoc by (destruct (str_truthy n); discriminate).
  intros H. apply append_cancel_l in H. apply append_cancel_l in H. exact H.
Qed.

Lemma list_loop_acc (st : store) (keys : Datatypes.list string) (acc ts : Datatypes.list checkpoint_tuple) :
  list_loop st keys acc = Ok ts -> forall x, In x acc -> In x ts.
Proof.
  revert acc. induction keys as [| k keys IH]; intros acc H x Hx; simpl in H.
  - injection H as <-. exact Hx.
  - destruct (py_endswith k ":latest"); [exact (IH _ H x Hx) |].
    destruct (redis_get st k) as [b |]; [| exact (IH _ H x Hx)].
    destruct (blob_truthy b); [| exact (IH _ H x Hx)].
    destruct (loads b) as [d |]; [| discriminate].
    apply (IH _ H). apply in_or_app. left. exact Hx.
Qed.

Lemma list_loop_includes (st : store) (keys : Datatypes.list string) (acc ts : Datatypes.list checkpoint_tuple)
    (k : string) (d : stored) (e : Z) :
  list_loop st keys acc = Ok ts -> In k keys -> py_endswith k ":latest" = false ->
  st !! k = Some (mk_entry (Pickled d) e) -> In (to_tuple d) ts.
Proof.
  intros H Hin Hl Hk. revert acc H.
  induction keys as [| k0 keys IH]; intros acc H; [destruct Hin |].
  destruct Hin as [<- | Hin].
  - simpl in H. rewrite Hl in H. unfold redis_get in H. rewrite Hk in H. simpl in H.
    apply (list_loop_acc _ _ _ _ H). apply in_or_app. right. left. reflexivity.
  - simpl in H. destruct (py_endswith k0 ":latest"); [exact (IH Hin _ H) |].
    destruct (redis_get st k0) as [b |]; [| exact (IH Hin _ H)].
    destruct (blob_truthy b); [| exact (IH Hin _ H)].
    destruct (loads b) as [d0 |]; [exact (IH Hin _ H) | discriminate].
Qed.

Lemma list_loop_sound (st : store) (keys : Datatypes.list string) (acc ts : Datatypes.list checkpoint_tuple) :
  list_loop st keys acc = Ok ts -> forall x, In x ts ->
  In x acc \/ exists k d e, In k keys /\ py_endswith k ":latest" = false /\
                            st !! k = Some (mk_entry (Pickled d) e) /\ x = to_tuple d.
Proof.
  revert acc. induction keys as [| k keys IH]; intros acc H x Hx; simpl in H.
  - injection H as <-. left. exact Hx.
  - assert (Lift : (In x acc \/ exists k' d e, In k' keys /\ py_endswith k' ":latest" = false /\
                            st !! k' = Some (mk_entry (Pickled d) e) /\ x = to_tuple d) ->
                   In x acc \/ exists k' d e, In k' (k :: keys) /\ py_endswith k' ":latest" = false /\
                            st !! k' = Some (mk_entry (Pickled d) e) /\ x = to_tuple d).
    { intros [Ha | (k' & d & e & Hi & R)]; [left; exact Ha | right; exists k', d, e; split; [right; exact Hi | exact R]]. }
    destruct (py_endswith k ":latest") eqn:El; [exact (Lift (IH _ H x Hx)) |].
    unfold redis_get in H. destruct (st !! k) as [[b e] |] eqn:Ek; simpl in H; [| exact (Lift (IH _ H x Hx))].
    destruct (blob_truthy b); [| exact (Lift (IH _ H x Hx))].
    destruct b as [d | bs]; simpl in H; [| discriminate].
    destruct (IH _ H x Hx) as [Ha | R]; [| exact (Lift (or_intror R))].
    apply in_app_or in Ha as [Ha | [<- | []]]; [left; exact Ha |].
    right. exists k, d, e. split; [left; reflexivity | auto].
Qed.

(** After [put], [get_tuple] for the same thread and namespace and the
    checkpoint id that was put (or none) returns the record written. *)
Theorem put_get_roundtrip (sv : saver) (st : store) (cfg g : config) (cp : checkpoint) (md : metadata) :
  cfg_thread_id g = cfg_thread_id cfg ->
  cfg_checkpoint_ns g = cfg_checkpoint_ns cfg ->
  (cfg_checkpoint_id g = cp_id cp \/ cfg_checkpoint_id g = None) ->
  get_tuple sv (snd (put sv st cfg cp md)) g = Ok (Some (to_tuple (put_record cfg cp md))).
Proof.
  intros Ht Hns Hid. apply CheckpointerFacts.get_tuple_pickled with (t := ttl sv).
  unfold get_key. rewrite Ht, Hns.
  destruct Hid as [-> | ->]; [apply CheckpointerFacts.put_specific_lookup | apply CheckpointerFacts.put_latest_lookup].
Qed.

(** A later [put] of another checkpoint id in the same thread and namespace
    keeps the earlier checkpoint readable by its id, and moves "latest". *)
Theorem put_keeps_earlier (sv : saver) (st : store) (cfg1 cfg2 g1 g2 : config)
    (cp1 cp2 : checkpoint) (md1 md2 : metadata) (c1 : string) :
  cfg_thread_id cfg2 = cfg_thread_id cfg1 -> cfg_checkpoint_ns cfg2 = cfg_checkpoint_ns cfg1 ->
  cp_id cp1 = Some c1 -> c1 <> "" -> c1 <> "latest" -> cp_id cp2 <> Some c1 ->
  cfg_thread_id g1 = cfg_thread_id cfg1 -> cfg_checkpoint_ns g1 = cfg_checkpoint_ns cfg1 ->
  cfg_checkpoint_id g1 = Some c1 ->
  cfg_thread_id g2 = cfg_thread_id cfg1 -> cfg_checkpoint_ns g2 = cfg_checkpoint_ns cfg1 ->
  cfg_checkpoint_id g2 = None ->
  let st2 := snd (put sv (snd (put sv st cfg1 cp1 md1)) cfg2 cp2 md2) in
  get_tuple sv st2 g1 = Ok (Some (to_tuple (put_record cfg1 cp1 md1))) /\
  get_tuple sv st2 g2 = Ok (Some (to_tuple (put_record cfg2 cp2 md2))).
Proof.
  intros Ht2 Hn2 Hc1 Hne Hnl Hc2 Ht1 Hn1 Hi1 Ht3 Hn3 Hi3 st2. subst st2.
  assert (Tc1 : str_truthy c1 = true).
  { unfold str_truthy. apply negb_true_iff, String.eqb_neq. exact Hne. }
  split.
  - apply CheckpointerFacts.get_tuple_pickled with (t := ttl sv).
    unfold get_key. rewrite Ht1, Hn1, Hi1, CheckpointerFacts.put_store, Ht2, Hn2.
    rewrite lookup_insert_ne; [rewrite lookup_insert_ne |].
    + rewrite <- Hc1. apply CheckpointerFacts.put_specific_lookup.
    + intros E. apply make_key_inj in E. rewrite Tc1 in E.
      destruct (cp_id cp2) as [c2 |]; [| congruence].
      destruct (str_truthy c2); congruence.
    + intros E. apply make_key_inj in E. rewrite Tc1 in E. congruence.
  - apply CheckpointerFacts.get_tuple_pickled with (t := ttl sv).
    unfold get_key. rewrite Ht3, Hn3, Hi3, <- Ht2, <- Hn2.
    apply CheckpointerFacts.put_latest_lookup.
Qed.

(** Every tuple [list] returns was read from a key its pattern matched,
    other than a "latest" alias, holding a pickled record. *)
Theorem list_sound (sv : saver) (st : store) (cfg : config) (limit : option Z)
    (ts : Datatypes.list checkpoint_tuple) :
  list sv st cfg limit = Ok ts ->
  forall x, In x ts ->
  exists k d e, In k (redis_keys st (list_pattern sv cfg)) /\ py_endswith k ":latest" = false /\
                st !! k = Some (mk_entry (Pickled d) e) /\ x = to_tuple d.
Proof.
  unfold list. destruct (list_loop st (redis_keys st (list_pattern sv cfg)) []) as [tuples |] eqn:E;
    [| discriminate].
  intros H x Hx.
  assert (Hin : In x tuples).
  { destruct limit as [n |]; [| injection H as <-; exact Hx].
    destruct (n =? 0)%Z; injection H as <-; [exact Hx |].
    unfold py_take in Hx. destruct (0 <=? n)%Z; exact (take_In _ _ _ Hx). }
  destruct (list_loop_sound _ _ _ _ E x Hin) as [[] | R]. exact R.
Qed.

(** After [put] of a checkpoint with a non-empty id, [list] for the same
    thread and namespace returns its record, when the key prefix has no
    KEYS metacharacter and the key does not end in ":latest". *)
Theorem list_after_put (sv : saver) (st : store) (cfg g : config) (cp : checkpoint) (md : metadata)
    (c : string) (ts : Datatypes.list checkpoint_tuple) :
  cp_id cp = Some c -> c <> "" ->
  Redis.glob_free (namespace sv) = true -> Redis.glob_free (cfg_thread_id cfg) = true ->
  Redis.glob_free (cfg_checkpoint_ns cfg) = true ->
  py_endswith (make_key sv (cfg_thread_id cfg) (cfg_checkpoint_ns cfg) (Some c)) ":latest" = false ->
  cfg_thread_id g = cfg_thread_id cfg -> cfg_checkpoint_ns g = cfg_checkpoint_ns cfg ->
  list sv (snd (put sv st cfg cp md)) g None = Ok ts ->
  In (to_tuple (put_record cfg cp md)) ts.
Proof.
  intros Hc Hne Gn Gt Gs Hl Ht Hn H.
  assert (Tc : str_truthy c = true).
  { unfold str_truthy. apply negb_true_iff, String.eqb_neq. exact Hne. }
  set (st' := snd (put sv st cfg cp md)) in *.
  set (k := make_key sv (cfg_thread_id cfg) (cfg_checkpoint_ns cfg) (Some c)) in *.
  assert (Hk : st' !! k = Some (mk_entry (Pickled (put_record cfg cp md)) (ttl sv))).
  { subst k st'. rewrite <- Hc. apply CheckpointerFacts.put_specific_lookup. }
  unfold list in H.
  destruct (list_loop st' (redis_keys st' (list_pattern sv g)) []) as [tuples |] eqn:E; [| discriminate].
  injection H as <-.
  apply (list_loop_includes _ _ _ _ k _ (ttl sv) E); [| exact Hl | exact Hk].
  unfold redis_keys. apply list_elem_of_In, list_elem_of_filter. split.
  - set (pre := if str_truthy (cfg_checkpoint_ns cfg)
                then [namespace sv; cfg_thread_id cfg; cfg_checkpoint_ns cfg]
                else [namespace sv; cfg_thread_id cfg]).
    assert (Hpat : list_pattern sv g = py_join ":" (app pre ["*"])).
    { subst pre. unfold list_pattern. rewrite Ht, Hn. destruct (str_truthy (cfg_checkpoint_ns cfg)); reflexivity. }
    assert (Hkey : k = py_join ":" (app pre [c])).
    { subst k pre. rewrite make_key_last, Tc. reflexivity. }
    assert (Hpre : pre <> []) by (unfold pre; destruct (str_truthy (cfg_checkpoint_ns cfg)); intros Eq; discriminate Eq).
    rewrite Hpat, Hkey. unfold Redis.glob_match.
    rewrite !py_join_snoc by exact Hpre. rewrite !str_append_assoc, !list_ascii_of_string_append.
    assert (N : app (list_ascii_of_string (py_join ":" pre)) (list_ascii_of_string ":") <> []).
    { intros Eq. apply (f_equal (@length ascii)) in Eq. rewrite length_app in Eq. simpl in Eq. lia. }
    assert (F : Redis.glob_free (String.append (py_join ":" pre) ":") = true).
    { rewrite glob_free_app, glob_free_join; [reflexivity | reflexivity |].
      unfold pre. destruct (str_truthy (cfg_checkpoint_ns cfg)); repeat constructor; assumption. }
    unfold Redis.glob_free in F. rewrite list_ascii_of_string_append in F.
    apply gmatch_prefix_star; try exact N; try exact F.
    rewrite <- list_ascii_of_string_append, length_list_ascii_of_string, !length_append. simpl. lia.
  - apply list_elem_of_In, in_map_iff. exists (k, mk_entry (Pickled (put_record cfg cp md)) (ttl sv)).
    split; [reflexivity |]. apply list_elem_of_In, elem_of_map_to_list. exact Hk.
Qed.

(** Bytes that do not unpickle make [get_tuple] raise the exception of
    [pickle.loads] ([EOFError] for empty bytes), empty bytes included; [list]'s loop skips empty bytes and goes on. *)
Theorem raw_bytes_get_vs_list (sv : saver) (st : store) (cfg : config) (bs : Datatypes.list Byte.byte) (e : Z) :
  st !! get_key sv cfg = Some (mk_entry (RawBytes bs) e) ->
  get_tuple sv st cfg = Raise LoadsError /\
  (bs = [] -> forall keys acc, list_loop st (get_key sv cfg :: keys) acc = list_loop st keys acc).
Proof.
  intros H. split.
  - unfold get_tuple, redis_get. rewrite H. reflexivity.
  - intros -> keys acc. simpl. unfold redis_get. rewrite H. simpl.
    destruct (py_endswith _ _); reflexivity.
Qed.


Lemma put_get_roundtrip_witness :
  get_tuple Samples.sv0 (snd (put Samples.sv0 ∅ (Samples.cfg_session "a") Samples.cp_c1 Samples.md1))
    (Some (mk_configurable (Some "a") None (Some "c1"))) =
  Ok (Some (to_tuple (put_record (Samples.cfg_session "a") Samples.cp_c1 Samples.md1))).
Proof. apply put_get_roundtrip; [reflexivity | reflexivity | left; reflexivity]. Defined.

Lemma put_keeps_earlier_witness :
  get_tuple Samples.sv0 Samples.store_a2 (Some (mk_configurable (Some "a") None (Some "c1"))) =
    Ok (Some (to_tuple (put_record (Samples.cfg_session "a") Samples.cp_c1 Samples.md1))) /\
  get_tuple Samples.sv0 Samples.store_a2 (Samples.cfg_session "a") =
    Ok (Some (to_tuple (put_record (Samples.cfg_session "a") Samples.cp_c2 Samples.md2))).
Proof.
  apply (put_keeps_earlier Samples.sv0 ∅ (Samples.cfg_session "a") (Samples.cfg_session "a")
           (Some (mk_configurable (Some "a") None (Some "c1"))) (Samples.cfg_session "a")
           Samples.cp_c1 Samples.cp_c2 Samples.md1 Samples.md2 "c1");
    first [reflexivity | discriminate].
Defined.

Lemma list_sound_witness :
  exists k d e, In k (redis_keys Samples.store_a2 (list_pattern Samples.sv0 (Samples.cfg_session "a"))) /\
                py_endswith k ":latest" = false /\
                Samples.store_a2 !! k = Some (mk_entry (Pickled d) e) /\
                to_tuple (put_record (Samples.cfg_session "a") Samples.cp_c2 Samples.md2) = to_tuple d.
Proof.
  apply (list_sound Samples.sv0 Samples.store_a2 (Samples.cfg_session "a") None
           [to_tuple (put_record (Samples.cfg_session "a") Samples.cp_c1 Samples.md1);
            to_tuple (put_record (Samples.cfg_session "a") Samples.cp_c2 Samples.md2)]).
  - vm_compute. reflexivity.
  - right. left. reflexivity.
Defined.

Lemma list_after_put_witness :
  In (to_tuple (put_record (Samples.cfg_session "a") Samples.cp_c1 Samples.md1))
     [to_tuple (put_record (Samples.cfg_session "a") Samples.cp_c1 Samples.md1)].
Proof.
  apply (list_after_put Samples.sv0 ∅ (Samples.cfg_session "a") (Samples.cfg_session "a")
           Samples.cp_c1 Samples.md1 "c1");
    first [reflexivity | discriminate | vm_compute; reflexivity].
Defined.

Lemma raw_bytes_get_vs_list_witness :
  get_tuple Samples.sv0 Samples.store_corrupt (Some (mk_configurable (Some "a") None (Some "c2"))) =
  Raise LoadsError.
Proof.
  apply (raw_bytes_get_vs_list Samples.sv0 Samples.store_corrupt _ [Byte.x80; Byte.x04] 86400).
  vm_compute. reflexivity.
Defined.

End CheckpointerProps.

(* ===================================================================== *)
(** * cli_interview.py: further properties *)
(* ===================================================================== *)

Module CLIProps.
Import CLI StringFacts.

(** With no "y" to the "Continue anyway?" prompt the input kept is at most
    2000 characters; an input of at most 2000 characters after [strip] is
    kept whole. *)
Theorem read_input_bound (raw confirm : string) :
  (String.eqb (py_lower (py_strip confirm)) "y" = false ->
   (String.length (read_input raw confirm) <= 2000)%nat) /\
  ((String.length (py_strip raw) <= 2000)%nat -> read_input raw confirm = py_strip raw).
Proof.
  unfold read_input. split.
  - intros Hy. destruct (2000 <? String.length (py_strip raw))%nat eqn:L.
    + rewrite Hy. apply substring_0_length.
    + apply Nat.ltb_ge in L. exact L.
  - intros L. apply Nat.ltb_ge in L. rewrite L. reflexivity.
Qed.

Lemma read_input_bound_witness :
  (String.length (read_input (string_of_list_ascii (repeat "a"%char 2001)) "n") <= 2000)%nat.
Proof. apply (proj1 (read_input_bound _ _)). reflexivity. Defined.

Lemma cli_turn_inv (st : cli_state) (ev : user_event) (r : agent_reply) (pairs : Datatypes.list (string * string)) :
  conversation_history st = pairs_history pairs -> length pairs = turn_count st ->
  Forall (fun p => fst p <> "") pairs ->
  exists pairs',
    conversation_history (outcome_state (cli_turn st ev r)) = pairs_history pairs' /\
    length pairs' = turn_count (outcome_state (cli_turn st ev r)) /\
    Forall (fun p => fst p <> "") pairs'.
Proof.
  intros Hh Hl Hf. unfold cli_turn.
  destruct ev as [raw confirm |]; [| exists pairs; auto].
  cbv zeta. destruct (String.eqb (read_input raw confirm) "") eqn:Ee; [exists pairs; auto |].
  destruct (is_quit (read_input raw confirm)); [exists pairs; auto |].
  destruct r as [| msg ic]; [exists pairs; auto |].
  exists (app pairs [(read_input raw confirm, msg)]).
  assert (Hh' : app (conversation_history st)
                  [mk_entry "user" (read_input raw confirm); mk_entry "assistant" msg] =
                pairs_history (app pairs [(read_input raw confirm, msg)])).
  { rewrite Hh. unfold pairs_history. rewrite flat_map_app. reflexivity. }
  assert (Hf' : Forall (fun p => fst p <> "") (app pairs [(read_input raw confirm, msg)])).
  { apply Forall_app. split; [exact Hf |]. constructor; [| constructor].
    simpl. apply String.eqb_neq. exact Ee. }
  destruct (ic || _); simpl; rewrite Hh', length_app, Hl; simpl; repeat split; auto; lia.
Qed.

Lemma cli_run_inv (st : cli_state) (steps : Datatypes.list (user_event * agent_reply)) (pairs : Datatypes.list (string * string)) :
  conversation_history st = pairs_history pairs -> length pairs = turn_count st ->
  Forall (fun p => fst p <> "") pairs ->
  exists pairs',
    conversation_history (outcome_state (cli_run st steps)) = pairs_history pairs' /\
    length pairs' = turn_count (outcome_state (cli_run st steps)) /\
    Forall (fun p => fst p <> "") pairs'.
Proof.
  revert st pairs. induction steps as [| [ev r] steps IH]; intros st pairs Hh Hl Hf.
  - exists pairs. auto.
  - simpl. destruct (cli_turn_inv st ev r pairs Hh Hl Hf) as (p' & H1 & H2 & H3).
    destruct (cli_turn st ev r) as [st' | s st']; simpl in *.
    + exact (IH st' p' H1 H2 H3).
    + exists p'. auto.
Qed.

(** From the start of the interview, whatever the inputs and replies, the
    history is [turn_count] pairs of a user entry with non-empty text and
    the assistant entry that answered it. *)
Theorem cli_run_invariant (steps : Datatypes.list (user_event * agent_reply)) :
  exists pairs,
    conversation_history (outcome_state (cli_run initial_state steps)) = pairs_history pairs /\
    length pairs = turn_count (outcome_state (cli_run initial_state steps)) /\
    Forall (fun p => fst p <> "") pairs.
Proof. apply (cli_run_inv initial_state steps []); [reflexivity | reflexivity | constructor]. Qed.

(** The progress bar has [max(turn_count, max_turns)] glyphs, of which
    [turn_count] are filled and the rest open. *)
Theorem progress_bar_counts (tc m : nat) :
  length (progress_bar tc m) = Nat.max tc m /\
  length (List.filter (fun g => match g with filled => true | open_slot => false end) (progress_bar tc m)) = tc /\
  length (List.filter (fun g => match g with filled => false | open_slot => true end) (progress_bar tc m)) = (m - tc)%nat.
Proof.
  unfold progress_bar. rewrite !List.filter_app, !length_app, !repeat_length.
  assert (F : forall (f : glyph -> bool) n (g : glyph),
             length (List.filter f (repeat g n)) = if f g then n else 0%nat).
  { intros f n g. induction n as [| n IH]; simpl; [destruct (f g); reflexivity |].
    destruct (f g); simpl; rewrite IH; reflexivity. }
  rewrite !F. simpl. repeat split; lia.
Qed.

End CLIProps.

(* ===================================================================== *)
(** * ConversationAnalyzerTool: further properties *)
(* ===================================================================== *)

Module AnalyzerProps.
Import Analyzer AnalyzerFacts.

Lemma analyze_shape (conv : Datatypes.list message) :
  conv <> [] ->
  analyze conv =
    mk_analysis (length (List.filter is_user conv)) (coverage_of conv)
      (Some (round2 (Qdiv (inject_Z (Z.of_nat (covered_count (coverage_of conv)))) (inject_Z 4))))
      ((8 <=? length (List.filter is_user conv))%nat &&
       Qle_bool (3 # 4) (Qdiv (inject_Z (Z.of_nat (covered_count (coverage_of conv)))) (inject_Z 4))).
Proof. destruct conv; [congruence | reflexivity]. Qed.

Lemma check_mentions_filter (c1 c2 : Datatypes.list message) (kws : Datatypes.list string) :
  List.filter is_user c1 = List.filter is_user c2 -> check_mentions c1 kws = check_mentions c2 kws.
Proof. intros H. unfold check_mentions. rewrite H. reflexivity. Qed.

(** Appending messages that are not from the user to a non-empty history
    changes nothing in the analysis. *)
Theorem analyze_ignores_non_user (conv more : Datatypes.list message) :
  conv <> [] -> Forall (fun m => is_user m = false) more ->
  analyze (app conv more) = analyze conv.
Proof.
  intros Hne Hm.
  assert (Hf : List.filter is_user (app conv more) = List.filter is_user conv).
  { rewrite List.filter_app.
    assert (E : List.filter is_user more = []).
    { induction Hm as [| m more Hm _ IH]; [reflexivity | simpl; rewrite Hm; exact IH]. }
    rewrite E, app_nil_r. reflexivity. }
  assert (Hc : coverage_of (app conv more) = coverage_of conv).
  { unfold coverage_of. apply map_ext. intros [n k]. rewrite (check_mentions_filter _ _ k Hf). reflexivity. }
  rewrite (analyze_shape (app conv more)), (analyze_shape conv), Hf, Hc; [reflexivity | exact Hne |].
  destruct conv; [congruence | discriminate].
Qed.

Lemma analyze_ignores_non_user_witness :
  analyze [mk_message (Some "user") (Some "a novel"); mk_message (Some "assistant") (Some "daily pages?")] =
  analyze [mk_message (Some "user") (Some "a novel")].
Proof.
  apply (analyze_ignores_non_user [mk_message (Some "user") (Some "a novel")]
           [mk_message (Some "assistant") (Some "daily pages?")]).
  - discriminate.
  - repeat constructor.
Defined.

Lemma check_mentions_app (conv more : Datatypes.list message) (kws : Datatypes.list string) :
  Forall (fun kw => keyword_ok kw = true) kws ->
  check_mentions conv kws = true -> check_mentions (app conv more) kws = true.
Proof.
  intros Hok. rewrite !check_mentions_per_message by exact Hok.
  rewrite !existsb_exists. intros (kw & Hin & H). exists kw. split; [exact Hin |].
  rewrite List.filter_app, existsb_app, H. reflexivity.
Qed.

Lemma covered_count_mono (conv more : Datatypes.list message) (ds : Datatypes.list (string * Datatypes.list string)) :
  Forall (fun d => Forall (fun kw => keyword_ok kw = true) (snd d)) ds ->
  Forall2 (fun c1 c2 : string * bool => fst c1 = fst c2 /\ (snd c1 = true -> snd c2 = true))
    (map (fun '(name, kws) => (name, check_mentions conv kws)) ds)
    (map (fun '(name, kws) => (name, check_mentions (app conv more) kws)) ds) /\
  (length (List.filter snd (map (fun '(name, kws) => (name, check_mentions conv kws)) ds)) <=
   length (List.filter snd (map (fun '(name, kws) => (name, check_mentions (app conv more) kws)) ds)))%nat.
Proof.
  intros H. induction H as [| [name kws] ds Hd _ [IH1 IH2]]; [split; [constructor | reflexivity] |].
  pose proof (check_mentions_app conv more kws Hd) as Hm.
  split; [constructor; [split; [reflexivity | exact Hm] | exact IH1] |].
  simpl. destruct (check_mentions conv kws); [rewrite Hm by reflexivity; simpl; lia |].
  destruct (check_mentions (app conv more) kws); simpl; lia.
Qed.

Lemma quarter_le (a b : nat) :
  (a <= b)%nat -> Qle (Qdiv (inject_Z (Z.of_nat a)) (inject_Z 4)) (Qdiv (inject_Z (Z.of_nat b)) (inject_Z 4)).
Proof. intros H. unfold Qle, Qdiv, Qmult, Qinv. simpl. lia. Qed.

(** Appending messages to a non-empty history never uncovers a dimension
    and never lowers turn_count or coverage_score; once ready_for_summary
    holds it keeps holding. *)
Theorem analyze_monotone (conv more : Datatypes.list message) :
  conv <> [] ->
  (an_turn_count (analyze conv) <= an_turn_count (analyze (app conv more)))%nat /\
  Forall2 (fun c1 c2 : string * bool => fst c1 = fst c2 /\ (snd c1 = true -> snd c2 = true))
    (an_coverage (analyze conv)) (an_coverage (analyze (app conv more))) /\
  exists q1 q2, an_coverage_score (analyze conv) = Some q1 /\
                an_coverage_score (analyze (app conv more)) = Some q2 /\ Qle q1 q2 /\
                (an_ready_for_summary (analyze conv) = true ->
                 an_ready_for_summary (analyze (app conv more)) = true).
Proof.
  intros Hne.
  assert (Hne' : app conv more <> []) by (destruct conv; [congruence | discriminate]).
  rewrite (analyze_shape conv Hne), (analyze_shape (app conv more) Hne').
  cbn [an_turn_count an_coverage an_coverage_score an_ready_for_summary].
  destruct (covered_count_mono conv more dimensions dimensions_ok) as [Hcov Hcnt].
  fold (coverage_of conv) (coverage_of (app conv more)) in Hcov, Hcnt.
  fold (covered_count (coverage_of conv)) (covered_count (coverage_of (app conv more))) in Hcnt.
  assert (Ht : (length (List.filter is_user conv) <= length (List.filter is_user (app conv more)))%nat).
  { rewrite List.filter_app, length_app. lia. }
  split; [exact Ht |]. split; [exact Hcov |].
  do 2 eexists. split; [reflexivity |]. split; [reflexivity |]. split.
  - rewrite (round2_quarter _ (covered_count_le conv)), (round2_quarter _ (covered_count_le (app conv more))).
    apply quarter_le. exact Hcnt.
  - rewrite !andb_true_iff, !Nat.leb_le, !Qle_bool_iff. intros [H1 H2]. split; [lia |].
    eapply Qle_trans; [exact H2 | apply quarter_le; exact Hcnt].
Qed.

Lemma analyze_monotone_witness :
  exists q1 q2,
    an_coverage_score (analyze [mk_message (Some "user") (Some "a novel")]) = Some q1 /\
    an_coverage_score (analyze [mk_message (Some "user") (Some "a novel");
                                mk_message (Some "user") (Some "I read daily")]) = Some q2 /\ Qle q1 q2.
Proof.
  destruct (analyze_monotone [mk_message (Some "user") (Some "a novel")]
              [mk_message (Some "user") (Some "I read daily")]) as (_ & _ & q1 & q2 & H1 & H2 & H3 & _);
    [discriminate |].
  exists q1, q2. split; [exact H1 | split; [exact H2 | exact H3]].
Defined.

End AnalyzerProps.

(* ===================================================================== *)
(** * ProfileAnalyzerTool: properties *)
(* ===================================================================== *)

Module ProfileProps.
Import ProfileAnalyzer.

(** The engagement score before rounding is 1/2, 3/4 or 1, and the
    analysis text calls it "high" above 0.7 and "moderate" otherwise:
    never "low". *)
Theorem profile_engagement (py_round2 : Q -> Q) (response_text : string) :
  exists e style suggestion,
    pa_engagement_level (profile_run py_round2 response_text) = py_round2 e /\
    (e == 1 # 2 \/ e == 3 # 4 \/ e == 1) /\
    pa_analysis (profile_run py_round2 response_text) =
      analysis_text style (if Qle_bool e (7 # 10) then "moderate" else "high") suggestion.
Proof.
  unfold profile_run, generate_analysis. cbv zeta.
  do 3 eexists. split; [reflexivity |].
  unfold engagement_of.
  destruct (existsb (fun ind => Analyzer.py_in ind (py_lower response_text)) example_indicators),
           (existsb (fun w => Analyzer.py_in w (py_lower response_text)) emotion_words);
    (split; [vm_compute; auto | reflexivity]).
Qed.

Lemma length_remove_dups_le (l : Datatypes.list string) : (length (remove_dups l) <= length l)%nat.
Proof. induction l as [| x l IH]; simpl; [lia |]. case_decide; simpl; lia. Qed.

(** Vocabulary richness before rounding lies in [0, 1], is 0 when there is
    no word and positive otherwise; response brevity before rounding lies
    in [0, 1] and is [1 - word_count/100] capped at 0. *)
Theorem profile_vocab_brevity (py_round2 : Q -> Q) (response_text : string) :
  let wc := pa_word_count (profile_run py_round2 response_text) in
  exists v b,
    pa_vocabulary_richness (profile_run py_round2 response_text) = py_round2 v /\
    pa_response_brevity (profile_run py_round2 response_text) = py_round2 b /\
    (0 <= v <= 1)%Q /\ (wc = 0%nat -> v == 0) /\ (wc <> 0%nat -> 0 < v)%Q /\
    (0 <= b <= 1)%Q /\
    ((wc <= 100)%nat -> b == Qminus 1 (Qdiv (inject_Z (Z.of_nat wc)) (inject_Z 100))) /\
    ((100 <= wc)%nat -> b == 0)%Q.
Proof.
  unfold profile_run. cbv zeta. cbn [pa_word_count pa_vocabulary_richness pa_response_brevity].
  set (words := py_split response_text).
  set (u := length (remove_dups (map py_lower words))).
  assert (Hu : (u <= length words)%nat).
  { subst u. etransitivity; [apply length_remove_dups_le | rewrite length_map; lia]. }
  assert (Hu1 : words <> [] -> (1 <= u)%nat).
  { intros Hne. destruct words as [| w ws] eqn:Ew; [congruence |].
    subst u. destruct (remove_dups (map py_lower (w :: ws))) eqn:E; [| simpl; lia].
    exfalso. assert (Hin : py_lower w ∈ remove_dups (map py_lower (w :: ws))).
    { apply elem_of_remove_dups. left. }
    rewrite E in Hin. inversion Hin. }
  do 2 eexists. split; [reflexivity |]. split; [reflexivity |].
  set (w := length words).
  assert (Hw0 : (0 <= inject_Z (Z.of_nat w))%Q) by (try change 0%Q with (inject_Z 0); rewrite <- Zle_Qle; lia).
  split; [| split; [| split; [| split; [| split]]]].
  - destruct words as [| x ws] eqn:Ew; [split; discriminate |].
    fold w. assert (Hwp : (0 < inject_Z (Z.of_nat w))%Q) by (try change 0%Q with (inject_Z 0); rewrite <- Zlt_Qlt; subst w; simpl; lia).
    split.
    + apply Qle_shift_div_l; [exact Hwp |]. rewrite Qmult_0_l. try change 0%Q with (inject_Z 0); rewrite <- Zle_Qle. lia.
    + apply Qle_shift_div_r; [exact Hwp |]. rewrite Qmult_1_l. try change 0%Q with (inject_Z 0); rewrite <- Zle_Qle. lia.
  - intros H. destruct words; [reflexivity | discriminate].
  - intros H. destruct words as [| x ws] eqn:Ew; [contradiction |].
    fold w. assert (Hwp : (0 < inject_Z (Z.of_nat w))%Q) by (try change 0%Q with (inject_Z 0); rewrite <- Zlt_Qlt; subst w; simpl; lia).
    apply Qlt_shift_div_l; [exact Hwp |]. rewrite Qmult_0_l. try change 0%Q with (inject_Z 0); rewrite <- Zlt_Qlt.
    specialize (Hu1 ltac:(discriminate)). lia.
  - destruct (Qle_bool _ 0) eqn:Eb.
    + split; discriminate.
    + apply Bool.not_true_iff_false in Eb. rewrite Qle_bool_iff in Eb. apply Qnot_le_lt in Eb.
      split; [apply Qlt_le_weak; exact Eb |].
      assert ((0 <= Qdiv (inject_Z (Z.of_nat w)) (inject_Z 100))%Q).
      { apply Qle_shift_div_l; [reflexivity |]. rewrite Qmult_0_l. exact Hw0. }
      unfold Qminus. rewrite <- (Qplus_0_r 1) at 2. apply Qplus_le_compat; [apply Qle_refl |].
      rewrite <- (Qopp_involutive 0). apply Qopp_le_compat. exact H.
  - intros Hle. destruct (Qle_bool _ 0) eqn:Eb; [| reflexivity].
    rewrite Qle_bool_iff in Eb.
    assert (Hge : (100 <= w)%nat).
    { destruct (Nat.le_gt_cases 100 w) as [G | L]; [exact G | exfalso].
      apply (Qle_not_lt _ _ Eb). apply (proj1 (Qlt_minus_iff (Qdiv (inject_Z (Z.of_nat w)) (inject_Z 100)) 1)).
      apply Qlt_shift_div_r; [reflexivity |]. rewrite Qmult_1_l. try change 0%Q with (inject_Z 0); rewrite <- Zlt_Qlt. lia. }
    assert (E100 : w = 100%nat) by lia. rewrite E100. reflexivity.
  - intros Hge. destruct (Qle_bool _ 0) eqn:Eb; [reflexivity |].
    exfalso. apply Bool.not_true_iff_false in Eb. apply Eb. apply Qle_bool_iff.
    unfold Qminus. apply (Qplus_le_l _ _ (Qdiv (inject_Z (Z.of_nat w)) (inject_Z 100))).
    rewrite <- Qplus_assoc, (Qplus_comm (- _)), Qplus_opp_r, Qplus_0_r, Qplus_0_l.
    apply Qle_shift_div_l; [reflexivity |]. rewrite Qmult_1_l. try change 0%Q with (inject_Z 0); rewrite <- Zle_Qle. lia.
Qed.

End ProfileProps.

(* ===================================================================== *)
(** * ReasoningExtractor: properties *)
(* ===================================================================== *)

Module ReasoningProps.
Import Reasoning.

(** [extract_reasoning] never returns an empty string, and a non-empty
    [additional_kwargs] value wins over [response_metadata]. *)
Theorem extract_reasoning_spec (response : llm_response) :
  (forall s, extract_reasoning response = Some s -> s <> "") /\
  (forall a, additional_kwargs_reasoning response = Some (Some a) -> a <> "" ->
             extract_reasoning response = Some a).
Proof.
  assert (T : forall v s, truthy_reasoning v = Some s -> s <> "").
  { intros [[s' |] |] s; simpl; try discriminate.
    unfold str_truthy. destruct (String.eqb_spec s' "") as [-> | Hne]; simpl; [discriminate |].
    intros H. injection H as <-. exact Hne. }
  unfold extract_reasoning. split.
  - intros s. destruct (truthy_reasoning (additional_kwargs_reasoning response)) as [r |] eqn:E.
    + intros H. injection H as <-. exact (T _ _ E).
    + apply T.
  - intros a Ha Hne. rewrite Ha. simpl. unfold str_truthy.
    destruct (String.eqb_spec a "") as [E | _]; [contradiction | reflexivity].
Qed.

Lemma extract_reasoning_spec_witness :
  extract_reasoning (mk_llm_response (Some (Some "think")) (Some (Some "other"))) = Some "think".
Proof. apply (proj2 (extract_reasoning_spec _)); [reflexivity | discriminate]. Defined.

(** For a non-empty [reasoning]: without a limit, or with [max_length]
    0, or when the stripped text fits, the result is the stripped text; a
    positive limit bounds the result to [max_length + 3] characters; a
    negative limit always truncates, keeping [len + max_length] characters
    (at least 0) and appending "...". *)
Theorem format_reasoning_spec (r : string) (n : Z) :
  r <> "" ->
  format_reasoning (Some r) None = py_strip r /\
  format_reasoning (Some r) (Some 0%Z) = py_strip r /\
  ((0 <= n)%Z -> (String.length (py_strip r) <= Z.to_nat n)%nat ->
     format_reasoning (Some r) (Some n) = py_strip r) /\
  ((0 < n)%Z -> (String.length (format_reasoning (Some r) (Some n)) <= Z.to_nat n + 3)%nat) /\
  ((n < 0)%Z -> exists pre, format_reasoning (Some r) (Some n) = (pre ++ "...")%string /\
     String.length pre = Z.to_nat (Z.of_nat (String.length (py_strip r)) + n)).
Proof.
  intros Hr.
  assert (T : str_truthy r = true).
  { unfold str_truthy. apply negb_true_iff, String.eqb_neq. exact Hr. }
  unfold format_reasoning. rewrite T. simpl negb. cbv iota zeta beta.
  split; [reflexivity |]. split; [reflexivity |]. split; [| split].
  - intros Hn Hl. destruct (Z.ltb_spec n (Z.of_nat (String.length (py_strip r)))); [lia |].
    rewrite andb_false_r. reflexivity.
  - intros Hn. destruct (Z.eqb_spec n 0) as [E | _]; [lia |].
    destruct (Z.ltb_spec n (Z.of_nat (String.length (py_strip r)))) as [L | L]; simpl andb; cbv iota.
    + rewrite StringFacts.length_append, StringFacts.length_string_of_list_ascii. simpl String.length.
      unfold py_take. destruct (Z.leb_spec 0 n); [| lia]. rewrite length_take. lia.
    + lia.
  - intros Hn. destruct (Z.eqb_spec n 0) as [E | _]; [lia |].
    destruct (Z.ltb_spec n (Z.of_nat (String.length (py_strip r)))) as [_ | L]; [| lia].
    simpl andb. cbv iota.
    eexists. split; [reflexivity |].
    rewrite StringFacts.length_string_of_list_ascii. unfold py_take.
    destruct (Z.leb_spec 0 n); [lia |].
    rewrite length_take, StringFacts.length_list_ascii_of_string. lia.
Qed.

Lemma format_reasoning_spec_witness :
  (String.length (format_reasoning (Some "  abcdef  ") (Some 3%Z)) <= 6)%nat.
Proof. apply (format_reasoning_spec "  abcdef  " 3); [discriminate | lia]. Defined.

Lemma reasoning_data_extracted (i : nat) (msgs : Datatypes.list base_message) :
  map (fun e => (re_turn e, re_role e, re_reasoning e)) (reasoning_data_from i (extract_from_messages msgs)) =
  omap (fun '(j, m) => (fun rs => (j, Some (bm_type m), rs)) <$> truthy_reasoning (bm_reasoning m))
       (combine (seq i (length msgs)) msgs) /\
  Forall (fun e => (String.length (re_content_preview e) <= 103)%nat)
         (reasoning_data_from i (extract_from_messages msgs)).
Proof.
  revert i. induction msgs as [| m msgs IH]; intros i; [split; [reflexivity | constructor] |].
  destruct (IH (S i)) as [IH1 IH2]. simpl.
  destruct (truthy_reasoning (bm_reasoning m)) as [rs |]; simpl.
  - split; [rewrite IH1; reflexivity |]. constructor; [| exact IH2].
    cbn [re_content_preview]. rewrite StringFacts.length_append.
    pose proof (StringFacts.substring_0_length 100 (bm_content m)). simpl String.length at 2. unfold py_prefix. lia.
  - split; [exact IH1 | exact IH2].
Qed.

(** Saving the output of [extract_from_messages] writes a file exactly
    when some message carries non-empty reasoning; the file lists those
    messages in order, each with its position, its type as role and its
    reasoning, and a content preview of at most 103 characters. *)
Theorem save_extracted (msgs : Datatypes.list base_message) (output_path : string) :
  (save_reasoning_separately (extract_from_messages msgs) output_path = None <->
   Forall (fun m => truthy_reasoning (bm_reasoning m) = None) msgs) /\
  (forall data, save_reasoning_separately (extract_from_messages msgs) output_path = Some data ->
     map (fun e => (re_turn e, re_role e, re_reasoning e)) data =
     omap (fun '(j, m) => (fun rs => (j, Some (bm_type m), rs)) <$> truthy_reasoning (bm_reasoning m))
          (combine (seq 0 (length msgs)) msgs) /\
     Forall (fun e => (String.length (re_content_preview e) <= 103)%nat) data).
Proof.
  destruct (reasoning_data_extracted 0 msgs) as [H1 H2].
  unfold save_reasoning_separately. split.
  - assert (G : forall i, reasoning_data_from i (extract_from_messages msgs) = [] <->
                          Forall (fun m => truthy_reasoning (bm_reasoning m) = None) msgs).
    { clear H1 H2. induction msgs as [| m msgs IH]; intros i; [split; [constructor | reflexivity] |].
      simpl. destruct (truthy_reasoning (bm_reasoning m)) as [rs |] eqn:E.
      - split; [discriminate |]. intros H. inversion H; congruence.
      - rewrite (IH (S i)). split; [intros H; constructor; assumption | intros H; inversion H; assumption]. }
    rewrite <- (G 0%nat).
    destruct (reasoning_data_from 0 (extract_from_messages msgs)); split; congruence.
  - intros data H.
    destruct (reasoning_data_from 0 (extract_from_messages msgs)) as [| e es] eqn:E; [discriminate |].
    injection H as <-. split; assumption.
Qed.

Lemma save_extracted_witness :
  save_reasoning_separately
    (extract_from_messages [mk_base_message "human" "hi" None;
                            mk_base_message "ai" "hello" (Some (Some "greet back"))]) "out.json" <> None.
Proof.
  intros H. apply (proj1 (save_extracted _ "out.json")) in H.
  inversion H as [| ? ? _ H2]. inversion H2 as [| ? ? H3 _]. discriminate H3.
Defined.

End ReasoningProps.
